(** * The /v1/files endpoints of the proxy: configuration store, model
      sniffing, dispatch of file creation and error normalisation.

    Shallow embedding of
    [litellm/proxy/openai_files_endpoints/files_endpoints.py].

    Python objects that are shared and mutated (the configuration list and
    its settings groups) live in an explicit heap; request dictionaries that
    a handler builds for one call are plain finite maps.  What the module
    imports from elsewhere (the secret store, the JSON parser, the backends,
    the request decorators) is a parameter: the secret store of the section
    on the configuration store, the fields of the class [Collaborators] for
    the endpoints. *)

From Stdlib Require Import ZArith NArith Strings.Byte.
From stdpp Require Import base option list strings gmap fin_maps.

Open Scope string_scope.

(** ** Python values and the object heap *)

Definition loc := positive.

(** A Python value as the endpoints see it.  The configuration list and
    its settings groups are shared objects that are mutated: a value refers
    to them through their address ([VRef]).  Objects that are built for one
    call and never mutated afterwards (the output of [json.loads], the
    [file] tuple) are kept by value.  Of a float only what the handlers
    observe is kept: whether it is zero. *)
#[warnings="-register-all"]
Inductive val :=
  | VNone
  | VBool (b : bool)
  | VInt (z : Z)
  | VFloat (is_zero : bool)
  | VStr (s : string)
  | VBytes (b : list Byte.byte)
  | VTuple (vs : list val)
  | VList (vs : list val)
  | VDict (items : list (string * val))
  | VRef (l : loc).

Inductive obj :=
  | ODict (d : gmap string val)
  | OList (l : list val).

(** The exceptions the module raises or lets through.  [HTTPException] is
    FastAPI's: its constructor always sets [status_code] and [detail]
    ([detail] is kept as its [str()]).  Any other exception is described by
    its class name and its [str()].  [exn_attrs] are the optional attributes
    that the handlers probe with [getattr]. *)
Record exn_attrs := {
  attr_message : option val;
  attr_type : option val;
  attr_param : option val;
  attr_status_code : option val;
}.

Definition no_attrs : exn_attrs :=
  {| attr_message := None; attr_type := None; attr_param := None;
     attr_status_code := None |}.

Inductive exn :=
  | HTTPException (status_code : Z) (detail : string) (attrs : exn_attrs)
  | PyException (cls : string) (str : string) (attrs : exn_attrs).

Definition ValueError (msg : string) : exn := PyException "ValueError" msg no_attrs.
Definition IndexError (msg : string) : exn := PyException "IndexError" msg no_attrs.
Definition AttributeError (msg : string) : exn := PyException "AttributeError" msg no_attrs.
Definition TypeError (msg : string) : exn := PyException "TypeError" msg no_attrs.

(** Outcome of a Python call: a returned value or a raised exception. *)
Inductive result (A : Type) :=
  | Ok (a : A)
  | Raise (e : exn).
Arguments Ok {A} a.
Arguments Raise {A} e.

Definition bind {A B} (r : result A) (k : A → result B) : result B :=
  match r with
  | Ok a => k a
  | Raise e => Raise e
  end.

Notation "'let*' x := r 'in' k" := (bind r (λ x, k))
  (at level 10, x name, r at level 100, k at level 200).

(** ** Process-wide state: the heap and the module global [files_config] *)

Record state := {
  heap : gmap loc obj;
  files_config : val;
}.

(** [isinstance(v, list)] and [isinstance(v, dict)] on the heap. *)
Definition as_list (h : gmap loc obj) (v : val) : option (list val) :=
  match v with
  | VRef l => match h !! l with Some (OList xs) => Some xs | _ => None end
  | _ => None
  end.

Definition as_dict (h : gmap loc obj) (v : val) : option (gmap string val) :=
  match v with
  | VRef l => match h !! l with Some (ODict d) => Some d | _ => None end
  | _ => None
  end.

(** [x is True] and [x is None] *)
Definition is_True (v : val) : bool :=
  match v with VBool true => true | _ => false end.

Definition is_None (v : val) : bool :=
  match v with VNone => true | _ => false end.

(** [s.startswith(p)] *)
Fixpoint startswith (p s : string) : bool :=
  match p, s with
  | EmptyString, _ => true
  | String a p', String b s' => if Ascii.eqb a b then startswith p' s' else false
  | String _ _, EmptyString => false
  end.

Arguments startswith : simpl never.

Definition secret_marker : string := "os.environ/".

Section ConfigStore.

(** [litellm.get_secret_str]: the environment-backed secret store, which
    answers every reference with an [Optional[str]]. *)
Variable get_secret_str : string → option string.

Definition secret_val (s : string) : val :=
  match get_secret_str s with
  | Some r => VStr r
  | None => VNone
  end.

(** [isinstance(value, str) and value.startswith("os.environ/")] *)
Definition is_secret_ref (v : val) : bool :=
  match v with
  | VStr s => startswith secret_marker s
  | _ => false
  end.

(** One iteration of the inner loop of [set_files_config]:
    [if ...: element[key] = get_secret_str(value)]. *)
Definition resolve_item (key : string) (value : val)
    (element : gmap string val) : gmap string val :=
  match value with
  | VStr s => if startswith secret_marker s
              then <[key := secret_val s]> element
              else element
  | _ => element
  end.

(** [for key, value in element.items(): ...] run on the dictionary
    [element] itself: the items are those the dictionary had when the
    loop reached them, and an assignment only replaces the value of the
    key being visited. *)
Definition resolve_dict (element : gmap string val) : gmap string val :=
  map_fold resolve_item element element.

(** The outer loop, [for element in config], on the heap: an element that
    is a dictionary is rewritten where it lives. *)
Fixpoint resolve_elements (h : gmap loc obj) (config : list val) : gmap loc obj :=
  match config with
  | [] => h
  | element :: rest =>
      match element with
      | VRef l =>
          match h !! l with
          | Some (ODict d) => resolve_elements (<[l := ODict (resolve_dict d)]> h) rest
          | _ => resolve_elements h rest
          end
      | _ => resolve_elements h rest
      end
  end.

Definition set_files_config (config : val) (σ : state) : result unit * state :=
  if is_None config then (Ok (), σ)
  else match as_list (heap σ) config with
       | None =>
           (Raise (ValueError "invalid files config, expected a list is not a list"), σ)
       | Some elements =>
           (Ok (), {| heap := resolve_elements (heap σ) elements;
                       files_config := config |})
       end.

(** [setting.get("custom_llm_provider") == custom_llm_provider] *)
Definition provider_is (custom_llm_provider : string) (d : gmap string val) : bool :=
  match d !! "custom_llm_provider" with
  | Some (VStr s) => String.eqb s custom_llm_provider
  | _ => false
  end.

(** [for setting in files_config: ...]; [setting.get] on something that
    is not a dictionary raises [AttributeError].  [files_config] is only
    ever assigned by [set_files_config], which stores a list: the last
    branch of [get_files_provider_config] is there for totality. *)
Fixpoint find_setting (h : gmap loc obj) (custom_llm_provider : string)
    (settings : list val) : result val :=
  match settings with
  | [] => Ok VNone
  | setting :: rest =>
      match as_dict h setting with
      | Some d =>
          if provider_is custom_llm_provider d then Ok setting
          else find_setting h custom_llm_provider rest
      | None => Raise (AttributeError "object has no attribute 'get'")
      end
  end.

Definition get_files_provider_config (custom_llm_provider : string)
    (σ : state) : result val :=
  if String.eqb custom_llm_provider "vertex_ai" then Ok VNone
  else if is_None (files_config σ) then
    Raise (ValueError "files_config is not set, set it on your config.yaml file.")
  else match as_list (heap σ) (files_config σ) with
       | Some settings => find_setting (heap σ) custom_llm_provider settings
       | None => Raise (TypeError "object is not iterable")
       end.

End ConfigStore.


(** ** Truthiness and [dict.get] *)

(** [bool(v)] *)
Definition truthy (h : gmap loc obj) (v : val) : bool :=
  match v with
  | VNone => false
  | VBool b => b
  | VInt z => negb (z =? 0)%Z
  | VFloat is_zero => negb is_zero
  | VStr s => negb (String.eqb s "")
  | VBytes b => match b with [] => false | _ => true end
  | VTuple vs | VList vs => match vs with [] => false | _ => true end
  | VDict items => match items with [] => false | _ => true end
  | VRef l =>
      match h !! l with
      | Some (ODict d) => negb (size d =? 0)%nat
      | Some (OList xs) => match xs with [] => false | _ => true end
      | None => true
      end
  end.

(** Lookup in the items of a by-value dictionary. *)
Fixpoint items_get (key : string) (items : list (string * val)) : option val :=
  match items with
  | [] => None
  | (k, v) :: rest => if String.eqb k key then Some v else items_get key rest
  end.

(** [o.get(key, default)]: only a dictionary has [get]. *)
Definition py_get (h : gmap loc obj) (o : val) (key : string) (dflt : val) : result val :=
  match o with
  | VDict items => Ok (default dflt (items_get key items))
  | VRef l =>
      match h !! l with
      | Some (ODict d) => Ok (default dflt (d !! key))
      | _ => Raise (AttributeError "object has no attribute 'get'")
      end
  | _ => Raise (AttributeError "object has no attribute 'get'")
  end.

(** ** The workload model sniffer *)

Module Text.

(** Decoded text: the sequence of its Unicode code points. *)
Definition str := list N.

Definition byte_val (b : Byte.byte) : N := Byte.to_N b.

(** A continuation byte [10xxxxxx] within the bounds [lo..hi]. *)
Definition cont (lo hi : N) (b : Byte.byte) : option N :=
  let n := byte_val b in
  if ((lo <=? n) && (n <=? hi))%N then Some (n - 128)%N else None.

(** [bytes.decode("utf-8")], strict: [None] stands for
    [UnicodeDecodeError] (a stray or missing continuation byte, an
    overlong form, a surrogate, a code point above U+10FFFF). *)
Fixpoint decode (bs : list Byte.byte) : option str :=
  match bs with
  | [] => Some []
  | b0 :: r0 =>
      let n0 := byte_val b0 in
      if (n0 <? 128)%N then cons n0 <$> decode r0
      else if ((194 <=? n0) && (n0 <=? 223))%N then
        match r0 with
        | b1 :: r1 =>
            match cont 128 191 b1 with
            | Some c1 => cons ((n0 - 192) * 64 + c1)%N <$> decode r1
            | None => None
            end
        | _ => None
        end
      else if ((224 <=? n0) && (n0 <=? 239))%N then
        match r0 with
        | b1 :: b2 :: r2 =>
            let lo := if (n0 =? 224)%N then 160%N else 128%N in
            let hi := if (n0 =? 237)%N then 159%N else 191%N in
            match cont lo hi b1, cont 128 191 b2 with
            | Some c1, Some c2 =>
                cons ((n0 - 224) * 4096 + c1 * 64 + c2)%N <$> decode r2
            | _, _ => None
            end
        | _ => None
        end
      else if ((240 <=? n0) && (n0 <=? 244))%N then
        match r0 with
        | b1 :: b2 :: b3 :: r3 =>
            let lo := if (n0 =? 240)%N then 144%N else 128%N in
            let hi := if (n0 =? 244)%N then 143%N else 191%N in
            match cont lo hi b1, cont 128 191 b2, cont 128 191 b3 with
            | Some c1, Some c2, Some c3 =>
                cons ((n0 - 240) * 262144 + c1 * 4096 + c2 * 64 + c3)%N
                  <$> decode r3
            | _, _, _ => None
            end
        | _ => None
        end
      else None
  end.

(** The line boundaries of [str.splitlines]. *)
Definition is_linebreak (c : N) : bool :=
  ((10 <=? c) && (c <=? 13) || (28 <=? c) && (c <=? 30)
   || (c =? 133) || (c =? 8232) || (c =? 8233))%N.

(** [str.splitlines()]: [cur] is the line being read, in reverse.  A
    carriage return followed by a line feed is one boundary; the text
    after the last boundary is a line only when it is not empty. *)
Fixpoint splitlines_from (cur : str) (s : str) : list str :=
  match s with
  | [] => match cur with [] => [] | _ => [rev cur] end
  | c :: rest =>
      if (c =? 13)%N then
        match rest with
        | c' :: rest' =>
            if (c' =? 10)%N then rev cur :: splitlines_from [] rest'
            else rev cur :: splitlines_from [] rest
        | [] => rev cur :: splitlines_from [] rest
        end
      else if is_linebreak c then rev cur :: splitlines_from [] rest
      else splitlines_from (c :: cur) rest
  end.

Definition splitlines (s : str) : list str := splitlines_from [] s.

(** [str.isspace] on one character. *)
Definition is_space (c : N) : bool :=
  ((9 <=? c) && (c <=? 13) || (28 <=? c) && (c <=? 32)
   || (c =? 133) || (c =? 160) || (c =? 5760)
   || (8192 <=? c) && (c <=? 8202)
   || (c =? 8232) || (c =? 8233) || (c =? 8239) || (c =? 8287)
   || (c =? 12288))%N.

Fixpoint lstrip (s : str) : str :=
  match s with
  | c :: rest => if is_space c then lstrip rest else s
  | [] => []
  end.

(** [str.strip()] *)
Definition strip (s : str) : str := rev (lstrip (rev (lstrip s))).

End Text.
(** ** Backend results and collaborators *)

(** [httpx.Response], as far as [get_file_content] reads it. *)
Record httpx_Response := {
  content : list Byte.byte;
  status_code : Z;
  headers : list (string * string);
}.

(** What a backend call returns: the payload that is serialised as the
    response body, the [_hidden_params] dictionary ([None] when the
    attribute is missing or is [None]) and, for file contents, the wrapped
    transport response (the attribute [response]). *)
Record backend_response := {
  payload : val;
  _hidden_params : option (gmap string val);
  response : option httpx_Response;
}.

(** [fastapi.Response(content=, status_code=, headers=)] *)
Record Response := {
  resp_content : list Byte.byte;
  resp_status_code : Z;
  resp_headers : list (string * string);
}.

(** [ProxyException(message=, type=, param=, code=)] *)
Record ProxyException := {
  message : val;
  type : val;
  param : val;
  code : val;
}.

(** The load-balanced pool, [litellm.router.Router]. *)
Record Router := {
  get_model_names : list string;
  router_acreate_file : gmap string val → result backend_response;
}.

(** The uploaded file, [fastapi.UploadFile]. *)
Record UploadFile := {
  filename : val;
  file_bytes : list Byte.byte;
  content_type : val;
}.

(** What the module imports from the rest of the proxy and from the
    library.  A backend call receives its keyword arguments as one
    dictionary. *)
Class Collaborators := {
  Request : Type;
  UserAPIKeyAuth : Type;
  json_loads : Text.str → option val;
  get_custom_llm_provider_from_request_body : Request → result (option string);
  add_litellm_data_to_request :
    gmap string val → Request → UserAPIKeyAuth → result (gmap string val);
  litellm_acreate_file : gmap string val → result backend_response;
  litellm_afile_content : gmap string val → result backend_response;
  litellm_afile_retrieve : gmap string val → result backend_response;
  litellm_afile_delete : gmap string val → result backend_response;
  litellm_afile_list : gmap string val → result backend_response;
  get_custom_headers : UserAPIKeyAuth → val → val → val → val → gmap string string;
  allowed_model_region : UserAPIKeyAuth → option val;
  repr_response : backend_response → string;
}.

(** What a handler does: it returns a response or raises a
    [ProxyException]. *)
Inductive handler_result (A : Type) :=
  | Responded (a : A)
  | Failed (e : ProxyException).
Arguments Responded {A} a.
Arguments Failed {A} e.

(** [getattr(e, "status_code", None)] *)
Definition getattr_status_code (e : exn) : option val :=
  match e with
  | HTTPException status_code _ _ => Some (VInt status_code)
  | PyException _ _ attrs => attr_status_code attrs
  end.

Definition getattr_message (e : exn) : option val :=
  match e with
  | HTTPException _ _ attrs | PyException _ _ attrs => attr_message attrs
  end.

(** The [except Exception as e] block shared by the five handlers.  The
    failure hook that is awaited first and the two log lines return and
    leave nothing behind that the handler reads; what remains is the
    exception that the block raises. *)
Definition to_proxy_exception (e : exn) : ProxyException :=
  match e with
  | HTTPException _ detail attrs =>
      {| message := default (VStr detail) (attr_message attrs);
         type := default (VStr "None") (attr_type attrs);
         param := default (VStr "None") (attr_param attrs);
         code := default (VInt 400) (getattr_status_code e) |}
  | PyException _ str attrs =>
      {| message := default (VStr str) (attr_message attrs);
         type := default (VStr "None") (attr_type attrs);
         param := default (VStr "None") (attr_param attrs);
         code := default (VInt 500) (getattr_status_code e) |}
  end.

(** [try: body except Exception as e: raise ProxyException(...)] *)
Definition handle {A} (body : result A) : handler_result A :=
  match body with
  | Ok a => Responded a
  | Raise e => Failed (to_proxy_exception e)
  end.

(** Calling [f(k=v, ..., **data)]: a keyword that is given twice is a
    [TypeError]. *)
Fixpoint kwargs (explicit : list (string * val)) (data : gmap string val)
    : result (gmap string val) :=
  match explicit with
  | [] => Ok data
  | (k, v) :: rest =>
      match data !! k with
      | Some _ => Raise (TypeError "got multiple values for keyword argument")
      | None => let* d := kwargs rest data in Ok (<[k := v]> d)
      end
  end.

(** [d.update(other)] on a fresh copy of [d]: the items of [other]
    replace those of [d]. *)
Definition dict_update (h : gmap loc obj) (d : gmap string val) (other : val)
    : result (gmap string val) :=
  match other with
  | VRef l =>
      match h !! l with
      | Some (ODict c) => Ok (c ∪ d)
      | _ => Raise (TypeError "object is not iterable")
      end
  | VDict items => Ok (list_to_map items ∪ d)
  | _ => Raise (TypeError "object is not iterable")
  end.

(** [s or None]: the empty string is falsy. *)
Definition nonempty (o : option string) : option string :=
  match o with
  | Some s => if String.eqb s "" then None else Some s
  | None => None
  end.

(** [v or ""] *)
Definition or_empty (h : gmap loc obj) (v : val) : val :=
  if truthy h v then v else VStr "".

(** ** The endpoints *)

Section Endpoints.
Context `{C : Collaborators}.

Definition get_first_json_object (file_content_bytes : list Byte.byte) : result val :=
  match Text.decode file_content_bytes with
  | None => Ok VNone                       (* UnicodeDecodeError, caught *)
  | Some file_content =>
      match Text.splitlines file_content with
      | [] => Raise (IndexError "list index out of range")
      | line :: _ =>
          match json_loads (Text.strip line) with
          | Some json_object => Ok json_object
          | None => Ok VNone               (* json.JSONDecodeError, caught *)
          end
      end
  end.

Definition get_model_from_json_obj (h : gmap loc obj) (json_object : val) : result val :=
  let* b := py_get h json_object "body" (VDict []) in
  let body := if truthy h b then b else VDict [] in
  py_get h body "model" VNone.

(** [model in model_names], for a list of strings: only a string can be
    equal to one of them. *)
Definition in_names (model : val) (model_names : list string) : bool :=
  match model with
  | VStr s => bool_decide (s ∈ model_names)
  | _ => false
  end.

Definition is_known_model (model : val) (llm_router : option Router) : bool :=
  if is_None model then false
  else match llm_router with
       | None => false
       | Some r => in_names model (get_model_names r)
       end.

(** [provider or await get_custom_llm_provider_from_request_body(request)
    or "openai"]: the request body is read only when [provider] is
    falsy. *)
Definition effective_provider (provider : option string) (request : Request)
    : result string :=
  match nonempty provider with
  | Some p => Ok p
  | None =>
      let* from_body := get_custom_llm_provider_from_request_body request in
      Ok (default "openai" (nonempty from_body))
  end.

(** The block under [### RESPONSE HEADERS ###]: the headers of
    [fastapi_response] after [headers.update(...)]. *)
Definition response_headers (h : gmap loc obj) (user_api_key_dict : UserAPIKeyAuth)
    (r : backend_response) (fastapi_headers : gmap string string)
    : gmap string string :=
  let hidden_params := default ∅ (_hidden_params r) in
  let model_id := or_empty h (default VNone (hidden_params !! "model_id")) in
  let cache_key := or_empty h (default VNone (hidden_params !! "cache_key")) in
  let api_base := or_empty h (default VNone (hidden_params !! "api_base")) in
  get_custom_headers user_api_key_dict model_id cache_key api_base
    (default (VStr "") (allowed_model_region user_api_key_dict))
  ∪ fastapi_headers.

(** The sniffing block of [create_file]: [(router_model, is_router_model)]. *)
Definition sniff (flag : val) (llm_router : option Router) (h : gmap loc obj)
    (file_content : list Byte.byte) : result (val * bool) :=
  if is_True flag then
    let* json_obj := get_first_json_object file_content in
    if truthy h json_obj then
      let* router_model := get_model_from_json_obj h json_obj in
      Ok (router_model, is_known_model router_model llm_router)
    else Ok (VNone, false)
  else Ok (VNone, false).

(** The [else] branch of [create_file]: the request that goes to the
    fixed provider. *)
Definition merge_provider_config (h : gmap loc obj)
    (_create_file_request : gmap string val) (llm_provider_config : val)
    : result (gmap string val) :=
  let* updated :=
    (if is_None llm_provider_config then Ok _create_file_request
     else dict_update h _create_file_request llm_provider_config) in
  Ok (delete "custom_llm_provider" updated).

Definition create_file_fixed_provider (custom_llm_provider : string)
    (_create_file_request : gmap string val) (σ : state) : result backend_response :=
  let* llm_provider_config := get_files_provider_config custom_llm_provider σ in
  let* merged := merge_provider_config (heap σ) _create_file_request llm_provider_config in
  litellm_acreate_file (<["custom_llm_provider" := VStr custom_llm_provider]> merged).

(** The [if] branch: the request that goes to the pool. *)
Definition create_file_router (llm_router : option Router) (router_model : val)
    (_create_file_request : gmap string val) : result backend_response :=
  match llm_router with
  | None =>
      Raise (HTTPException 500
               "{'error': 'LLM Router not initialized. Ensure models added to proxy.'}"
               no_attrs)
  | Some r =>
      let* kw := kwargs [("model", router_model)] _create_file_request in
      router_acreate_file r kw
  end.

(** The [try] block of [create_file].  [flag] is
    [litellm.enable_loadbalancing_on_batch_endpoints]; the status update
    that is started with [asyncio.create_task] is not awaited and has no
    part in the result. *)
Definition create_file_try (flag : val) (llm_router : option Router)
    (request : Request) (purpose : string) (provider : option string)
    (file : UploadFile) (user_api_key_dict : UserAPIKeyAuth) (σ : state)
    (fastapi_headers : gmap string string)
    : result (backend_response * gmap string string) :=
  let file_content := file_bytes file in
  let* custom_llm_provider := effective_provider provider request in
  let* data := add_litellm_data_to_request {["purpose" := VStr purpose]}
                 request user_api_key_dict in
  let file_data := VTuple [filename file; VBytes file_content; content_type file] in
  let* sniffed := sniff flag llm_router (heap σ) file_content in
  let router_model := fst sniffed in
  let is_router_model := snd sniffed in
  let* _create_file_request := kwargs [("file", file_data)] data in
  let* r :=
    (if is_True flag && is_router_model && negb (is_None router_model)
     then create_file_router llm_router router_model _create_file_request
     else create_file_fixed_provider custom_llm_provider _create_file_request σ) in
  Ok (r, response_headers (heap σ) user_api_key_dict r fastapi_headers).

Definition create_file flag llm_router request purpose provider file
    user_api_key_dict σ fastapi_headers :=
  handle (create_file_try flag llm_router request purpose provider file
            user_api_key_dict σ fastapi_headers).

(** The [try] block of [get_file_content].  The headers that the block
    under [### RESPONSE HEADERS ###] puts on [fastapi_response] are not
    part of the [Response] that is returned. *)
Definition get_file_content_try (request : Request) (file_id : string)
    (provider : option string) (user_api_key_dict : UserAPIKeyAuth)
    : result Response :=
  let* data := add_litellm_data_to_request ∅ request user_api_key_dict in
  let* custom_llm_provider := effective_provider provider request in
  let* kw := kwargs [("custom_llm_provider", VStr custom_llm_provider);
                     ("file_id", VStr file_id)] data in
  let* r := litellm_afile_content kw in
  match response r with
  | None =>
      Raise (ValueError ("Invalid response - response.response is None - got "
                         ++ repr_response r))
  | Some httpx_response =>
      Ok {| resp_content := content httpx_response;
            resp_status_code := status_code httpx_response;
            resp_headers := headers httpx_response |}
  end.

Definition get_file_content request file_id provider user_api_key_dict :=
  handle (get_file_content_try request file_id provider user_api_key_dict).

(** The [try] blocks of [get_file], [delete_file] and [list_files] differ
    in the backend they call and in its keyword arguments. *)
Definition file_op_try (backend : gmap string val → result backend_response)
    (explicit : string → list (string * val))
    (request : Request) (provider : option string)
    (user_api_key_dict : UserAPIKeyAuth) (h : gmap loc obj)
    (fastapi_headers : gmap string string)
    : result (backend_response * gmap string string) :=
  let* custom_llm_provider := effective_provider provider request in
  let* data := add_litellm_data_to_request ∅ request user_api_key_dict in
  let* kw := kwargs (explicit custom_llm_provider) data in
  let* r := backend kw in
  Ok (r, response_headers h user_api_key_dict r fastapi_headers).

Definition get_file_try request (file_id : string) provider user_api_key_dict h fastapi_headers :=
  file_op_try litellm_afile_retrieve
    (λ custom_llm_provider,
       [("custom_llm_provider", VStr custom_llm_provider); ("file_id", VStr file_id)])
    request provider user_api_key_dict h fastapi_headers.

Definition get_file request file_id provider user_api_key_dict h fastapi_headers :=
  handle (get_file_try request file_id provider user_api_key_dict h fastapi_headers).

Definition delete_file_try request (file_id : string) provider user_api_key_dict h fastapi_headers :=
  file_op_try litellm_afile_delete
    (λ custom_llm_provider,
       [("custom_llm_provider", VStr custom_llm_provider); ("file_id", VStr file_id)])
    request provider user_api_key_dict h fastapi_headers.

Definition delete_file request file_id provider user_api_key_dict h fastapi_headers :=
  handle (delete_file_try request file_id provider user_api_key_dict h fastapi_headers).

Definition list_files_try request provider (purpose : option string) user_api_key_dict
    h fastapi_headers :=
  file_op_try litellm_afile_list
    (λ custom_llm_provider,
       [("custom_llm_provider", VStr custom_llm_provider);
        ("purpose", from_option VStr VNone purpose)])
    request provider user_api_key_dict h fastapi_headers.

Definition list_files request provider purpose user_api_key_dict h fastapi_headers :=
  handle (list_files_try request provider purpose user_api_key_dict h fastapi_headers).

End Endpoints.

(** ** Reading [set_files_config] *)

(** What the inner loop does to one value. *)
Definition resolve_val (get_secret_str : string → option string) (v : val) : val :=
  if is_secret_ref v
  then match v with VStr s => secret_val get_secret_str s | _ => v end
  else v.

(** How many times the object at [p] is listed in [config]. *)
Fixpoint occurrences (p : loc) (config : list val) : nat :=
  match config with
  | [] => 0
  | VRef l :: rest =>
      if decide (l = p) then S (occurrences p rest) else occurrences p rest
  | _ :: rest => occurrences p rest
  end.

(** ** A small deployment, for concrete runs *)

Module Demo.

(** The process environment. *)
Definition os_environ : list (string * string) :=
  [("AZURE_API_KEY", "sk-azure"); ("A", "os.environ/B"); ("B", "sk-b")].

Fixpoint getenv (name : string) (env : list (string * string)) : option string :=
  match env with
  | [] => None
  | (k, v) :: rest => if String.eqb k name then Some v else getenv name rest
  end.

(** A secret store that reads [os.environ/NAME] from the environment. *)
Definition get_secret_str (s : string) : option string :=
  if startswith secret_marker s
  then getenv (String.substring 11 (String.length s - 11) s) os_environ
  else getenv s os_environ.

(** A secret store none of whose secrets is itself a reference. *)
Definition plain_secret_str (s : string) : option string :=
  if String.eqb s "os.environ/AZURE_API_KEY" then Some "sk-azure" else None.

Definition azure_settings : gmap string val :=
  {[ "custom_llm_provider" := VStr "azure";
     "api_base" := VStr "https://x";
     "api_key" := VStr "os.environ/AZURE_API_KEY" ]}.

Definition openai_settings : gmap string val :=
  {[ "custom_llm_provider" := VStr "openai";
     "purpose" := VStr "fine-tune";
     "api_key" := VStr "os.environ/A" ]}.

(** The caller's configuration: a list at address 1 of two settings
    groups, at addresses 2 and 3. *)
Definition heap0 : gmap loc obj :=
  {[ 1%positive := OList [VRef 2%positive; VRef 3%positive];
     2%positive := ODict azure_settings;
     3%positive := ODict openai_settings ]}.

Definition st0 : state := {| heap := heap0; files_config := VNone |}.

(** The state after [set_files_config(config)], and after a second call
    on the same list. *)
Definition st1 : state := snd (set_files_config get_secret_str (VRef 1%positive) st0).
Definition st2 : state := snd (set_files_config get_secret_str (VRef 1%positive) st1).

(** The bytes of a string in which every apostrophe stands for a double
    quote. *)
Definition quoted (s : string) : list Byte.byte :=
  (λ b, if Byte.eqb b Byte.x27 then Byte.x22 else b) <$> String.list_byte_of_string s.

(** A batch file: one request per line. *)
Definition batch_line : list Byte.byte :=
  quoted "{'body': {'model': 'gpt-4'}}".

Definition batch_file : UploadFile :=
  {| filename := VStr "mydata.jsonl";
     file_bytes := batch_line ++ [Byte.x0a] ++ batch_line ++ [Byte.x0a];
     content_type := VStr "application/jsonl" |}.

Definition empty_file : UploadFile :=
  {| filename := VStr "empty.jsonl"; file_bytes := []; content_type := VNone |}.

(** A parser that knows the line of [batch_file] only. *)
Definition loads (s : Text.str) : option val :=
  if bool_decide (s = Text.byte_val <$> batch_line)
  then Some (VDict [("body", VDict [("model", VStr "gpt-4")])])
  else None.

Definition file_object (id : string) : backend_response :=
  {| payload := VDict [("id", VStr id); ("object", VStr "file")];
     _hidden_params := Some {[ "api_base" := VStr "https://x" ]};
     response := None |}.

Definition file_content (body : string) : backend_response :=
  {| payload := VNone;
     _hidden_params := None;
     response := Some {| content := String.list_byte_of_string body;
                         status_code := 200;
                         headers := [("content-type", "application/jsonl")] |} |}.

(** Backends whose answer shows which request they received. *)
Definition fixed_backend (kw : gmap string val) : result backend_response :=
  match kw !! "purpose" with
  | Some (VStr p) => Ok (file_object ("fixed-" ++ p))
  | _ => Ok (file_object "fixed")
  end.

Definition not_found : exn :=
  PyException "NotFoundError" "no such file"
    {| attr_message := Some (VStr "No such file");
       attr_type := None; attr_param := None;
       attr_status_code := Some (VInt 404) |}.

Definition content_backend (kw : gmap string val) : result backend_response :=
  match kw !! "file_id" with
  | Some (VStr "abc") => Ok (file_object "abc")
  | Some (VStr "gone") => Raise not_found
  | _ => Ok (file_content "{}")
  end.

Definition collaborators : Collaborators :=
  {| Request := option string;
     UserAPIKeyAuth := unit;
     json_loads := loads;
     get_custom_llm_provider_from_request_body := λ body, Ok body;
     add_litellm_data_to_request :=
       λ data _ _, Ok (<["litellm_call_id" := VStr "call-1"]> data);
     litellm_acreate_file := fixed_backend;
     litellm_afile_content := content_backend;
     litellm_afile_retrieve := λ _, Ok (file_object "abc");
     litellm_afile_delete := λ _, Ok (file_object "abc");
     litellm_afile_list := λ _, Ok (file_object "list");
     get_custom_headers := λ _ model_id cache_key api_base region,
       match api_base with
       | VStr s => {[ "x-litellm-model-api-base" := s ]}
       | _ => ∅
       end;
     allowed_model_region := λ _, None;
     repr_response := λ _, "HttpxBinaryResponseContent" |}.

Definition pool : Router :=
  {| get_model_names := ["gpt-4"; "gpt-3.5-turbo"];
     router_acreate_file := λ _, Ok (file_object "pool") |}.

(** The body of the answer of a handler. *)
Definition body_of {A} (r : handler_result (backend_response * A)) : handler_result val :=
  match r with
  | Responded (b, _) => Responded (payload b)
  | Failed e => Failed e
  end.

Definition upload_request : gmap string val := {["purpose" := VStr "batch"]}.

Definition call_data : gmap string val := {["litellm_call_id" := VStr "call-1"]}.

End Demo.

(** ** Reading the sniffer *)

(** A byte that is a character of its own (ASCII) and does not end a
    line. *)
Definition first_line_byte (b : Byte.byte) : bool :=
  (Text.byte_val b <? 128)%N && negb (Text.is_linebreak (Text.byte_val b)).

(** [isinstance(v, dict)] for a value of this module. *)
Definition is_dict (h : gmap loc obj) (v : val) : bool :=
  match v with
  | VDict _ => true
  | VRef l => match h !! l with Some (ODict _) => true | _ => false end
  | _ => false
  end.

(** ** More of the demo deployment *)

Module Cases.

(** Two bytes that no UTF-8 text contains. *)
Definition broken_tail : list Byte.byte := [Byte.xff; Byte.xfe].

(** A configuration whose first element is not a settings group and whose
    settings group refers to a secret that the environment does not
    have. *)
Definition azure_settings : gmap string val :=
  {[ "custom_llm_provider" := VStr "azure";
     "api_key" := VStr "os.environ/MISSING" ]}.

Definition heap1 : gmap loc obj :=
  {[ 1%positive := OList [VStr "azure"; VRef 2%positive];
     2%positive := ODict azure_settings ]}.

Definition st : state := {| heap := heap1; files_config := VNone |}.

(** An upload whose first line is a JSON array. *)
Definition list_file : UploadFile :=
  {| filename := VStr "list.jsonl";
     file_bytes := [Byte.x5b; Byte.x31; Byte.x5d];
     content_type := VNone |}.

(** A parser that also knows the line of [list_file]. *)
Definition loads (s : Text.str) : option val :=
  if bool_decide (s = [91; 49; 93]%N) then Some (VList [VInt 1]) else Demo.loads s.

Definition collaborators : Collaborators :=
  {| Request := option string;
     UserAPIKeyAuth := unit;
     json_loads := loads;
     get_custom_llm_provider_from_request_body := λ body, Ok body;
     add_litellm_data_to_request :=
       λ data _ _, Ok (<["litellm_call_id" := VStr "call-1"]> data);
     litellm_acreate_file := Demo.fixed_backend;
     litellm_afile_content := Demo.content_backend;
     litellm_afile_retrieve := λ _, Ok (Demo.file_object "abc");
     litellm_afile_delete := λ _, Ok (Demo.file_object "abc");
     litellm_afile_list := λ _, Ok (Demo.file_object "list");
     get_custom_headers := λ _ _ _ _ _, ∅;
     allowed_model_region := λ _, None;
     repr_response := λ _, "FileObject" |}.

(** The data that the demo deployment attaches to an upload. *)
Definition upload_data : gmap string val :=
  <["litellm_call_id" := VStr "call-1"]> {["purpose" := VStr "batch"]}.

End Cases.

(** * Properties *)

Section ConfigStoreFacts.
Variable sec : string → option string.

Lemma resolve_item_lookup key value (element : gmap string val) k :
  resolve_item sec key value element !! k =
    if decide (key = k)
    then (if is_secret_ref value then Some (resolve_val sec value) else element !! k)
    else element !! k.
Proof.
  unfold resolve_item, resolve_val.
  destruct (decide (key = k)) as [->|Hne].
  - destruct value; simpl; auto.
    destruct (startswith secret_marker s); [by rewrite lookup_insert_eq | done].
  - destruct value; simpl; auto.
    destruct (startswith secret_marker s); [by rewrite lookup_insert_ne | done].
Qed.

(** The loop over the items, started on any dictionary [d0]. *)
Lemma resolve_fold_lookup (d0 m : gmap string val) k :
  map_fold (resolve_item sec) d0 m !! k =
    match m !! k with
    | Some v => if is_secret_ref v then Some (resolve_val sec v) else d0 !! k
    | None => d0 !! k
    end.
Proof.
  revert k.
  apply (map_fold_weak_ind
           (λ r (m : gmap string val), ∀ k, r !! k =
              match m !! k with
              | Some v => if is_secret_ref v then Some (resolve_val sec v) else d0 !! k
              | None => d0 !! k
              end)).
  - intros k. by rewrite lookup_empty.
  - intros i x m' r Hi IH k.
    rewrite resolve_item_lookup.
    case_decide as Hik.
    + subst k. rewrite lookup_insert_eq.
      destruct (is_secret_ref x); [done|].
      rewrite IH, Hi. done.
    + rewrite lookup_insert_ne by done. apply IH.
Qed.

Lemma resolve_val_id v : is_secret_ref v = false → resolve_val sec v = v.
Proof. unfold resolve_val. by intros ->. Qed.

Lemma resolve_dict_lookup (d : gmap string val) k :
  resolve_dict sec d !! k = resolve_val sec <$> d !! k.
Proof.
  unfold resolve_dict. rewrite resolve_fold_lookup.
  destruct (d !! k) as [v|] eqn:Hk; simpl; [|done].
  destruct (is_secret_ref v) eqn:Hv; [done|].
  by rewrite resolve_val_id.
Qed.

Lemma resolve_dict_fmap (d : gmap string val) :
  resolve_dict sec d = resolve_val sec <$> d.
Proof. apply map_eq. intros k. by rewrite resolve_dict_lookup, lookup_fmap. Qed.

(** The loop over the elements: an object that is listed [n] times is
    resolved [n] times, where it lives; nothing else changes. *)
Lemma resolve_elements_lookup config (h : gmap loc obj) p :
  resolve_elements sec h config !! p =
    match h !! p with
    | Some (ODict d) => Some (ODict (Nat.iter (occurrences p config) (resolve_dict sec) d))
    | o => o
    end.
Proof.
  revert h. induction config as [|element rest IH]; intros h; simpl.
  - by destruct (h !! p) as [[]|].
  - destruct element; try apply IH.
    destruct (h !! l) as [[d|xs]|] eqn:Hl.
    + rewrite IH. case_decide as Hlp.
      * subst l. rewrite lookup_insert_eq, Hl. simpl.
        by rewrite <- Nat.iter_succ_r.
      * by rewrite lookup_insert_ne.
    + rewrite IH. case_decide; [subst l; by rewrite Hl | done].
    + rewrite IH. case_decide; [subst l; by rewrite Hl | done].
Qed.

Lemma resolve_elements_list config (h : gmap loc obj) v xs :
  as_list h v = Some xs → as_list (resolve_elements sec h config) v = Some xs.
Proof.
  destruct v; simpl; try done.
  rewrite resolve_elements_lookup.
  by destruct (h !! l) as [[]|].
Qed.

End ConfigStoreFacts.

Lemma provider_is_true x (d : gmap string val) :
  provider_is x d = true ↔ d !! "custom_llm_provider" = Some (VStr x).
Proof.
  unfold provider_is. destruct (d !! "custom_llm_provider") as [[]|]; try done.
  rewrite String.eqb_eq. split; congruence.
Qed.

Lemma provider_is_false x (d : gmap string val) :
  provider_is x d = false ↔ d !! "custom_llm_provider" ≠ Some (VStr x).
Proof.
  rewrite <- provider_is_true. by destruct (provider_is x d).
Qed.

Section ConfigStoreClaims.
Variable sec : string → option string.

Lemma iter_fixed {A} (f : A → A) n x : f x = x → Nat.iter n f x = x.
Proof. intros Hx. induction n as [|n IH]; simpl; [done | by rewrite IH]. Qed.

Lemma iter_idempotent {A} (f : A → A) n x :
  (∀ y, f (f y) = f y) → 0 < n → Nat.iter n f x = f x.
Proof.
  intros Hf Hn. destruct n as [|n]; [lia|].
  rewrite Nat.iter_succ_r. by apply iter_fixed.
Qed.

Lemma iter_resolve_dict_lookup n (d : gmap string val) k :
  Nat.iter n (resolve_dict sec) d !! k = Nat.iter n (resolve_val sec) <$> d !! k.
Proof.
  induction n as [|n IH]; simpl.
  - by destruct (d !! k).
  - rewrite resolve_dict_lookup, IH. by destruct (d !! k).
Qed.

Lemma occurrences_elem p config : VRef p ∈ config → 0 < occurrences p config.
Proof.
  induction config as [|v rest IH]; intros Hin; [by apply elem_of_nil in Hin|].
  apply elem_of_cons in Hin as [<-|Hin]; simpl.
  - rewrite decide_True by done. lia.
  - specialize (IH Hin). destruct v; try done. case_decide; lia.
Qed.

(** Resolving a reference again and again ends on the answer of the
    secret store to some reference. *)
Lemma iter_resolve_val_secret n s :
  startswith secret_marker s = true →
  ∃ s', startswith secret_marker s' = true ∧
        Nat.iter (S n) (resolve_val sec) (VStr s) = secret_val sec s'.
Proof.
  intros Hs. induction n as [|n (s' & Hs' & IH)].
  - exists s. split; [done|]. simpl. unfold resolve_val. simpl. by rewrite Hs.
  - change (Nat.iter (S (S n)) (resolve_val sec) (VStr s))
      with (resolve_val sec (Nat.iter (S n) (resolve_val sec) (VStr s))).
    rewrite IH. unfold secret_val at 1.
    destruct (sec s') as [r|] eqn:Hr.
    + destruct (startswith secret_marker r) eqn:Hm.
      * exists r. split; [done|]. unfold resolve_val. simpl. by rewrite Hm.
      * exists s'. split; [done|]. unfold resolve_val, secret_val. simpl.
        by rewrite Hm, Hr.
    + exists s'. split; [done|]. unfold resolve_val, secret_val. simpl.
      by rewrite Hr.
Qed.

Section NoMarkerInSecrets.
(** No secret is itself a reference to a secret. *)
Hypothesis secrets_are_plain :
  ∀ s r, sec s = Some r → startswith secret_marker r = false.

Lemma resolve_val_idempotent v :
  resolve_val sec (resolve_val sec v) = resolve_val sec v.
Proof.
  destruct (is_secret_ref v) eqn:Hv; [|by rewrite !(resolve_val_id sec v Hv)].
  destruct v; try done. simpl in Hv.
  assert (resolve_val sec (VStr s) = secret_val sec s) as ->.
  { unfold resolve_val. simpl. by rewrite Hv. }
  apply resolve_val_id. unfold secret_val.
  destruct (sec s) as [r|] eqn:Hr; simpl; eauto.
Qed.

Lemma resolve_dict_idempotent (d : gmap string val) :
  resolve_dict sec (resolve_dict sec d) = resolve_dict sec d.
Proof.
  apply map_eq. intros k. rewrite !resolve_dict_lookup.
  destruct (d !! k); simpl; [|done]. by rewrite resolve_val_idempotent.
Qed.
End NoMarkerInSecrets.

(** C6.  [set_files_config(None)] returns and leaves the state (the
    snapshot and every object) as it was; with an input that is present
    but is not a list it raises [ValueError] and leaves the state as it
    was. *)
Theorem set_files_config_absent_or_not_a_list (config : val) (σ : state) :
  (config = VNone → set_files_config sec config σ = (Ok (), σ)) ∧
  (config ≠ VNone → as_list (heap σ) config = None →
   ∃ msg, set_files_config sec config σ = (Raise (ValueError msg), σ)).
Proof.
  split.
  - by intros ->.
  - intros Hnone Hlist. unfold set_files_config. rewrite Hlist.
    destruct config; by eauto.
Qed.

Lemma find_setting_spec (h : gmap loc obj) x settings :
  Forall (λ v, is_Some (as_dict h v)) settings →
  (∃ i setting d,
      settings !! i = Some setting ∧ as_dict h setting = Some d ∧
      d !! "custom_llm_provider" = Some (VStr x) ∧
      (∀ j s' d', j < i → settings !! j = Some s' → as_dict h s' = Some d' →
                  d' !! "custom_llm_provider" ≠ Some (VStr x)) ∧
      find_setting h x settings = Ok setting)
  ∨ ((∀ s' d', s' ∈ settings → as_dict h s' = Some d' →
               d' !! "custom_llm_provider" ≠ Some (VStr x)) ∧
     find_setting h x settings = Ok VNone).
Proof.
  induction 1 as [|v rest [d Hd] _ IH]; simpl.
  - right. split; [|done]. intros s' d' Hin. by apply elem_of_nil in Hin.
  - rewrite Hd. destruct (provider_is x d) eqn:Hp.
    + left. exists 0, v, d. split_and!; try done.
      * by apply provider_is_true.
      * intros; lia.
    + apply provider_is_false in Hp.
      destruct IH as [(i & setting & d0 & Hi & Hd0 & Hx & Hbefore & Hfind)|[Hnone Hfind]].
      * left. exists (S i), setting, d0. split_and!; try done.
        intros [|j] s' d' Hj Hs' Hd'; simpl in Hs'.
        -- congruence.
        -- eapply Hbefore; [|done..]. lia.
      * right. split; [|done]. intros s' d' Hin Hd'.
        apply elem_of_cons in Hin as [->|Hin]; [congruence | eauto].
Qed.

(** C5.  [get_files_provider_config]: nothing for "vertex_ai", whatever
    the state; [ValueError] for another provider while no configuration
    was set; otherwise the first settings group of the list, in list
    order, whose provider is the one asked for, and nothing when there is
    none. *)
Theorem get_files_provider_config_spec (x : string) (σ : state) :
  (x = "vertex_ai" → get_files_provider_config x σ = Ok VNone) ∧
  (x ≠ "vertex_ai" → files_config σ = VNone →
   ∃ msg, get_files_provider_config x σ = Raise (ValueError msg)) ∧
  (x ≠ "vertex_ai" →
   ∀ settings,
     files_config σ ≠ VNone →
     as_list (heap σ) (files_config σ) = Some settings →
     Forall (λ v, is_Some (as_dict (heap σ) v)) settings →
     (∃ i setting d,
         settings !! i = Some setting ∧ as_dict (heap σ) setting = Some d ∧
         d !! "custom_llm_provider" = Some (VStr x) ∧
         (∀ j s' d', j < i → settings !! j = Some s' →
                     as_dict (heap σ) s' = Some d' →
                     d' !! "custom_llm_provider" ≠ Some (VStr x)) ∧
         get_files_provider_config x σ = Ok setting)
     ∨ ((∀ s' d', s' ∈ settings → as_dict (heap σ) s' = Some d' →
                  d' !! "custom_llm_provider" ≠ Some (VStr x)) ∧
        get_files_provider_config x σ = Ok VNone)).
Proof.
  unfold get_files_provider_config. split_and!.
  - by intros ->.
  - intros Hx Hnone. apply String.eqb_neq in Hx. rewrite Hx, Hnone. eauto.
  - intros Hx settings Hset Hlist Hdicts. apply String.eqb_neq in Hx.
    rewrite Hx, Hlist.
    assert (is_None (files_config σ) = false) as ->
      by (by destruct (files_config σ)).
    apply find_setting_spec, Hdicts.
Qed.

Lemma set_files_config_list (config : val) (σ : state) elements :
  as_list (heap σ) config = Some elements →
  set_files_config sec config σ =
    (Ok (), {| heap := resolve_elements sec (heap σ) elements;
                files_config := config |}).
Proof.
  intros Hlist. unfold set_files_config. rewrite Hlist.
  by destruct config.
Qed.

Lemma resolve_elements_stable (h : gmap loc obj) elements :
  (∀ s r, sec s = Some r → startswith secret_marker r = false) →
  resolve_elements sec (resolve_elements sec h elements) elements
  = resolve_elements sec h elements.
Proof.
  intros Hplain. apply map_eq. intros p.
  rewrite (resolve_elements_lookup sec elements (resolve_elements sec h elements)).
  rewrite resolve_elements_lookup.
  destruct (h !! p) as [[d|xs]|]; try done.
  destruct (occurrences p elements) as [|n] eqn:Hn; [done|].
  do 2 f_equal.
  rewrite !(iter_idempotent (resolve_dict sec) (S n))
    by (auto using resolve_dict_idempotent with lia).
  by apply resolve_dict_idempotent.
Qed.

(** C7, as amended.  When no secret is itself a reference to a secret:
    after [set_files_config(config)] the snapshot is [config], in each
    of its settings groups every string that begins with the marker has
    been replaced by what the secret store answers for it and every
    other value is as it was, and a second call on the same list changes
    nothing. *)
Theorem set_files_config_resolves_secrets (config : val) (σ : state) elements :
  (∀ s r, sec s = Some r → startswith secret_marker r = false) →
  as_list (heap σ) config = Some elements →
  ∃ σ', set_files_config sec config σ = (Ok (), σ') ∧
    files_config σ' = config ∧
    as_list (heap σ') config = Some elements ∧
    (∀ element d, element ∈ elements → as_dict (heap σ) element = Some d →
       ∃ d', as_dict (heap σ') element = Some d' ∧
         (∀ k s, d !! k = Some (VStr s) → startswith secret_marker s = true →
                 d' !! k = Some (secret_val sec s)) ∧
         (∀ k v, d !! k = Some v → is_secret_ref v = false → d' !! k = Some v)) ∧
    set_files_config sec config σ' = (Ok (), σ').
Proof.
  intros Hplain Hlist. eexists. split; [by apply set_files_config_list|].
  simpl. split_and!.
  - done.
  - by apply resolve_elements_list.
  - intros element d Hin Hd. destruct element as [| | | | | | | | |p]; try done.
    simpl in Hd. destruct (heap σ !! p) as [[d0|]|] eqn:Hp; try done.
    injection Hd as ->. simpl. rewrite resolve_elements_lookup, Hp.
    rewrite iter_idempotent
      by (auto using resolve_dict_idempotent, occurrences_elem).
    eexists. split; [done|]. split.
    + intros k s Hk Hs. rewrite resolve_dict_lookup, Hk. simpl.
      unfold resolve_val. simpl. by rewrite Hs.
    + intros k v Hk Hv. rewrite resolve_dict_lookup, Hk. simpl.
      by rewrite resolve_val_id.
  - erewrite set_files_config_list by (by apply resolve_elements_list).
    simpl. by rewrite resolve_elements_stable.
Qed.

(** C10.  [set_files_config(config)] on a list installs that very list
    as the snapshot and leaves the list as it was; a settings group of
    the list is rewritten where it lives, so that the caller's record
    holds, at a key whose value began with the marker, the answer of the
    secret store: the answer for that value when the record is listed
    once. *)
Theorem set_files_config_aliases_input (σ : state) l elements p d k s :
  heap σ !! l = Some (OList elements) →
  VRef p ∈ elements →
  heap σ !! p = Some (ODict d) →
  d !! k = Some (VStr s) →
  startswith secret_marker s = true →
  ∃ σ', set_files_config sec (VRef l) σ = (Ok (), σ') ∧
    files_config σ' = VRef l ∧
    heap σ' !! l = Some (OList elements) ∧
    ∃ d', heap σ' !! p = Some (ODict d') ∧
      (∃ s', startswith secret_marker s' = true ∧
             d' !! k = Some (secret_val sec s')) ∧
      (occurrences p elements = 1 → d' !! k = Some (secret_val sec s)).
Proof.
  intros Hl Hin Hp Hk Hs.
  assert (as_list (heap σ) (VRef l) = Some elements) as Hlist
    by (simpl; by rewrite Hl).
  eexists. split; [by apply set_files_config_list|]. simpl.
  split_and!; [done| |].
  - by rewrite resolve_elements_lookup, Hl.
  - rewrite resolve_elements_lookup, Hp. eexists. split; [done|].
    rewrite iter_resolve_dict_lookup, Hk. simpl.
    apply occurrences_elem in Hin.
    destruct (occurrences p elements) as [|n] eqn:Hn; [lia|]. split.
    + destruct (iter_resolve_val_secret n s Hs) as (s' & Hs' & Heq).
      exists s'. by rewrite <- Heq.
    + intros [= ->]. simpl. unfold resolve_val. simpl. by rewrite Hs.
Qed.

End ConfigStoreClaims.

(** ** The configuration store on the demo deployment *)

Ltac run := vm_compute; reflexivity.

Lemma is_Some_by_match {A} (o : option A) :
  match o with Some _ => True | None => False end → is_Some o.
Proof. destruct o; [eauto | done]. Qed.

Lemma plain_secrets_are_plain s r :
  Demo.plain_secret_str s = Some r → startswith secret_marker r = false.
Proof.
  unfold Demo.plain_secret_str.
  destruct (String.eqb s "os.environ/AZURE_API_KEY"); [|discriminate].
  intros [= <-]. reflexivity.
Qed.

Lemma set_files_config_absent_or_not_a_list_witness :
  set_files_config Demo.get_secret_str VNone Demo.st1 = (Ok (), Demo.st1) ∧
  ∃ msg, set_files_config Demo.get_secret_str (VStr "azure") Demo.st1
         = (Raise (ValueError msg), Demo.st1).
Proof.
  split.
  - apply (set_files_config_absent_or_not_a_list Demo.get_secret_str VNone Demo.st1).
    reflexivity.
  - apply (set_files_config_absent_or_not_a_list
             Demo.get_secret_str (VStr "azure") Demo.st1);
      [discriminate | reflexivity].
Defined.

Lemma get_files_provider_config_spec_witness :
  get_files_provider_config "vertex_ai" Demo.st0 = Ok VNone ∧
  (∃ msg, get_files_provider_config "azure" Demo.st0 = Raise (ValueError msg)) ∧
  ((∃ i setting d,
       [VRef 2%positive; VRef 3%positive] !! i = Some setting ∧
       as_dict (heap Demo.st1) setting = Some d ∧
       d !! "custom_llm_provider" = Some (VStr "openai") ∧
       (∀ j s' d', j < i → [VRef 2%positive; VRef 3%positive] !! j = Some s' →
                   as_dict (heap Demo.st1) s' = Some d' →
                   d' !! "custom_llm_provider" ≠ Some (VStr "openai")) ∧
       get_files_provider_config "openai" Demo.st1 = Ok setting)
   ∨ ((∀ s' d', s' ∈ [VRef 2%positive; VRef 3%positive] →
                as_dict (heap Demo.st1) s' = Some d' →
                d' !! "custom_llm_provider" ≠ Some (VStr "openai")) ∧
      get_files_provider_config "openai" Demo.st1 = Ok VNone)).
Proof.
  split_and!.
  - apply (get_files_provider_config_spec "vertex_ai" Demo.st0). reflexivity.
  - apply (get_files_provider_config_spec "azure" Demo.st0);
      [discriminate | reflexivity].
  - apply (get_files_provider_config_spec "openai" Demo.st1).
    + discriminate.
    + assert (files_config Demo.st1 = VRef 1%positive) as -> by run.
      discriminate.
    + run.
    + repeat first [apply Forall_nil_2 | apply Forall_cons_2];
        apply is_Some_by_match; vm_compute; exact I.
Defined.

(** C7, as stated, fails: the secret of [os.environ/A] is [os.environ/B],
    and a second [set_files_config] on the list that the first one
    resolved replaces it by the secret of [os.environ/B]. *)
Lemma set_files_config_not_idempotent :
  ∃ σ1, set_files_config Demo.get_secret_str (VRef 1%positive) Demo.st0 = (Ok (), σ1) ∧
        ∃ σ2, set_files_config Demo.get_secret_str (VRef 1%positive) σ1 = (Ok (), σ2) ∧
              σ2 ≠ σ1.
Proof.
  exists Demo.st1. split; [run|]. exists Demo.st2. split; [run|].
  intros Heq.
  apply (f_equal (λ σ, as_dict (heap σ) (VRef 3%positive) ≫= (.!! "api_key"))) in Heq.
  vm_compute in Heq. discriminate Heq.
Qed.

Lemma set_files_config_resolves_secrets_witness :
  ∃ σ', set_files_config Demo.plain_secret_str (VRef 1%positive) Demo.st0 = (Ok (), σ') ∧
        files_config σ' = VRef 1%positive ∧
        set_files_config Demo.plain_secret_str (VRef 1%positive) σ' = (Ok (), σ').
Proof.
  destruct (set_files_config_resolves_secrets Demo.plain_secret_str
              (VRef 1%positive) Demo.st0 [VRef 2%positive; VRef 3%positive]
              plain_secrets_are_plain ltac:(run))
    as (σ' & Hset & Hcfg & _ & _ & Hagain).
  exists σ'. exact (conj Hset (conj Hcfg Hagain)).
Defined.

Lemma set_files_config_aliases_input_witness :
  ∃ σ', set_files_config Demo.get_secret_str (VRef 1%positive) Demo.st0 = (Ok (), σ') ∧
        files_config σ' = VRef 1%positive ∧
        heap σ' !! 1%positive = Some (OList [VRef 2%positive; VRef 3%positive]) ∧
        ∃ d', heap σ' !! 2%positive = Some (ODict d') ∧
              d' !! "api_key" = Some (VStr "sk-azure").
Proof.
  destruct (set_files_config_aliases_input Demo.get_secret_str Demo.st0
              1%positive [VRef 2%positive; VRef 3%positive] 2%positive
              Demo.azure_settings "api_key" "os.environ/AZURE_API_KEY"
              ltac:(run) ltac:(repeat constructor) ltac:(run) ltac:(run) ltac:(run))
    as (σ' & Hset & Hcfg & Hlist & d' & Hd' & _ & Honce).
  exists σ'. refine (conj Hset (conj Hcfg (conj Hlist _))).
  exists d'. refine (conj Hd' (Honce _)). run.
Defined.

(** ** The model sniffer *)




Section SnifferClaims.
Context `{C : Collaborators}.

(** C3 fails on the empty upload: [b"".decode("utf-8").splitlines()] is
    the empty list, and [[0]] on it raises [IndexError], which the
    [except] clause of [get_first_json_object] does not catch. *)
Theorem get_first_json_object_empty_raises :
  get_first_json_object [] = Raise (IndexError "list index out of range").
Proof. reflexivity. Qed.


Lemma get_first_json_object_invalid_utf8 bs :
  Text.decode bs = None → get_first_json_object bs = Ok VNone.
Proof. unfold get_first_json_object. by intros ->. Qed.

End SnifferClaims.

(** ** File creation: which backend, with which request *)

Section CreateFileClaims.
Context `{C : Collaborators}.

Lemma is_known_model_no_router model : is_known_model model None = false.
Proof. unfold is_known_model. by destruct (is_None model). Qed.

Lemma sniff_no_router flag (h : gmap loc obj) file_content router_model is_router_model :
  sniff flag None h file_content = Ok (router_model, is_router_model) →
  is_router_model = false.
Proof.
  unfold sniff. destruct (is_True flag); [|by intros [= _ <-]].
  destruct (get_first_json_object file_content) as [json_obj|]; simpl; [|done].
  destruct (truthy h json_obj); [|by intros [= _ <-]].
  destruct (get_model_from_json_obj h json_obj); simpl; [|done].
  intros [= _ <-]. apply is_known_model_no_router.
Qed.

Lemma sniff_flag_off flag llm_router (h : gmap loc obj) file_content :
  is_True flag = false → sniff flag llm_router h file_content = Ok (VNone, false).
Proof. unfold sniff. by intros ->. Qed.

(** C2 fails on the code: without a router [is_known_model] answers
    [False], so the branch that raises "LLM Router not initialized" is
    never entered and the request goes to the fixed provider, whatever
    the flag and the upload are. *)
Theorem create_file_without_router_uses_fixed_provider
    flag request purpose provider file user_api_key_dict σ fastapi_headers :
  create_file_try flag None request purpose provider file user_api_key_dict σ
    fastapi_headers =
  (let* custom_llm_provider := effective_provider provider request in
   let* data := add_litellm_data_to_request {["purpose" := VStr purpose]}
                  request user_api_key_dict in
   let* sniffed := sniff flag None (heap σ) (file_bytes file) in
   let* _create_file_request :=
     kwargs [("file", VTuple [filename file; VBytes (file_bytes file);
                              content_type file])] data in
   let* r := create_file_fixed_provider custom_llm_provider _create_file_request σ in
   Ok (r, response_headers (heap σ) user_api_key_dict r fastapi_headers)).
Proof.
  unfold create_file_try.
  destruct (effective_provider provider request) as [custom_llm_provider|];
    simpl; [|done].
  destruct (add_litellm_data_to_request _ request user_api_key_dict) as [data|];
    simpl; [|done].
  destruct (sniff flag None (heap σ) (file_bytes file))
    as [[router_model is_router_model]|] eqn:Hsniff; simpl; [|done].
  apply sniff_no_router in Hsniff as ->.
  by rewrite andb_false_r.
Qed.

(** C4.  With the flag off (anything but [True]) the upload is not
    sniffed and the router is not consulted: the request goes to the
    fixed provider. *)
Theorem create_file_flag_off_uses_fixed_provider
    flag llm_router request purpose provider file user_api_key_dict σ fastapi_headers :
  is_True flag = false →
  create_file flag llm_router request purpose provider file user_api_key_dict σ
    fastapi_headers =
  handle
    (let* custom_llm_provider := effective_provider provider request in
     let* data := add_litellm_data_to_request {["purpose" := VStr purpose]}
                    request user_api_key_dict in
     let* _create_file_request :=
       kwargs [("file", VTuple [filename file; VBytes (file_bytes file);
                                content_type file])] data in
     let* r := create_file_fixed_provider custom_llm_provider _create_file_request σ in
     Ok (r, response_headers (heap σ) user_api_key_dict r fastapi_headers)).
Proof.
  intros Hflag. unfold create_file, create_file_try.
  rewrite (sniff_flag_off _ _ _ _ Hflag), Hflag. simpl.
  destruct (effective_provider provider request); simpl; [|done].
  by destruct (add_litellm_data_to_request _ request user_api_key_dict).
Qed.

Lemma merge_provider_config_lookup (h : gmap loc obj) req l d :
  h !! l = Some (ODict d) →
  merge_provider_config h req (VRef l) = Ok (delete "custom_llm_provider" (d ∪ req)).
Proof. intros Hl. unfold merge_provider_config. simpl. by rewrite Hl. Qed.

(** C1, as amended.  When the fixed provider has a settings group, the
    request that reaches the backend is the original one updated with
    the settings: at a key that both have, the value of the settings
    group; at a key that only one has, that one's value; the key
    [custom_llm_provider] of the merged request is dropped and set
    again from the provider of the call. *)
Theorem create_file_fixed_provider_merge custom_llm_provider
    (_create_file_request : gmap string val) σ l d :
  get_files_provider_config custom_llm_provider σ = Ok (VRef l) →
  heap σ !! l = Some (ODict d) →
  ∃ merged : gmap string val,
    create_file_fixed_provider custom_llm_provider _create_file_request σ =
      litellm_acreate_file (<["custom_llm_provider" := VStr custom_llm_provider]> merged) ∧
    merged !! "custom_llm_provider" = None ∧
    ∀ k, k ≠ "custom_llm_provider" →
         merged !! k = match d !! k with
                       | Some v => Some v
                       | None => _create_file_request !! k
                       end.
Proof.
  intros Hcfg Hl. exists (delete "custom_llm_provider" (d ∪ _create_file_request)).
  split_and!.
  - unfold create_file_fixed_provider. rewrite Hcfg. simpl.
    by rewrite (merge_provider_config_lookup _ _ _ _ Hl).
  - apply lookup_delete_eq.
  - intros k Hk. rewrite lookup_delete_ne by done.
    rewrite lookup_union. by destruct (d !! k), (_create_file_request !! k).
Qed.

End CreateFileClaims.

(** C1, as stated, fails: the settings group of "openai" has a [purpose],
    and it replaces the [purpose] of the request. *)
Lemma merge_provider_config_request_value_lost :
  ¬ (∀ (h : gmap loc obj) (req : gmap string val) l d merged,
       h !! l = Some (ODict d) →
       merge_provider_config h req (VRef l) = Ok merged →
       ∀ k v, k ≠ "custom_llm_provider" → req !! k = Some v → is_Some (d !! k) →
              merged !! k = Some v).
Proof.
  intros Hclaim.
  pose (req := {["purpose" := VStr "batch"]} : gmap string val).
  pose (merged := delete "custom_llm_provider" (Demo.openai_settings ∪ req)).
  assert (merged !! "purpose" = Some (VStr "fine-tune")) as Hpurpose by run.
  assert (merged !! "purpose" = Some (VStr "batch")) as Hreq.
  { apply (Hclaim Demo.heap0 req 3%positive Demo.openai_settings merged).
    - run.
    - apply merge_provider_config_lookup. run.
    - discriminate.
    - run.
    - apply is_Some_by_match. vm_compute. exact I. }
  rewrite Hpurpose in Hreq. discriminate Hreq.
Qed.

(** ** Responses and failures of the handlers *)

Section HandlerClaims.
Context `{C : Collaborators}.

(** C8.  When the backend call of [get_file_content] succeeds: without a
    wrapped transport response the handler fails with a
    [ProxyException] of code 500 whose message says that the response is
    invalid; with one, the response has its content, its status code
    and its headers. *)
Theorem get_file_content_passthrough request file_id provider user_api_key_dict
    data custom_llm_provider kw r :
  add_litellm_data_to_request ∅ request user_api_key_dict = Ok data →
  effective_provider provider request = Ok custom_llm_provider →
  kwargs [("custom_llm_provider", VStr custom_llm_provider);
          ("file_id", VStr file_id)] data = Ok kw →
  litellm_afile_content kw = Ok r →
  match response r with
  | None =>
      get_file_content request file_id provider user_api_key_dict =
        Failed {| message := VStr ("Invalid response - response.response is None - got "
                                   ++ repr_response r);
                  type := VStr "None";
                  param := VStr "None";
                  code := VInt 500 |}
  | Some httpx_response =>
      get_file_content request file_id provider user_api_key_dict =
        Responded {| resp_content := content httpx_response;
                     resp_status_code := status_code httpx_response;
                     resp_headers := headers httpx_response |}
  end.
Proof.
  intros Hdata Hprovider Hkw Hbackend.
  unfold get_file_content, get_file_content_try.
  rewrite Hdata. simpl. rewrite Hprovider. simpl.
  simpl in Hkw. rewrite Hkw. simpl. rewrite Hbackend. simpl.
  by destruct (response r).
Qed.

(** C9.  Whatever exception the [try] block of one of the five handlers
    raises, the handler raises the [ProxyException] made from it.  Its
    code is the status code that the exception carries, and 500 when it
    carries none; its message is the message that the exception carries;
    for an [HTTPException] these are its [status_code] and, when it has no
    [message], its [detail]. *)
Theorem handlers_normalize_exceptions (e : exn) :
  (∀ flag llm_router request purpose provider file user_api_key_dict σ fastapi_headers,
     create_file_try flag llm_router request purpose provider file
       user_api_key_dict σ fastapi_headers = Raise e →
     create_file flag llm_router request purpose provider file
       user_api_key_dict σ fastapi_headers = Failed (to_proxy_exception e)) ∧
  (∀ request file_id provider user_api_key_dict,
     get_file_content_try request file_id provider user_api_key_dict = Raise e →
     get_file_content request file_id provider user_api_key_dict
     = Failed (to_proxy_exception e)) ∧
  (∀ request file_id provider user_api_key_dict h fastapi_headers,
     get_file_try request file_id provider user_api_key_dict h fastapi_headers
     = Raise e →
     get_file request file_id provider user_api_key_dict h fastapi_headers
     = Failed (to_proxy_exception e)) ∧
  (∀ request file_id provider user_api_key_dict h fastapi_headers,
     delete_file_try request file_id provider user_api_key_dict h fastapi_headers
     = Raise e →
     delete_file request file_id provider user_api_key_dict h fastapi_headers
     = Failed (to_proxy_exception e)) ∧
  (∀ request provider purpose user_api_key_dict h fastapi_headers,
     list_files_try request provider purpose user_api_key_dict h fastapi_headers
     = Raise e →
     list_files request provider purpose user_api_key_dict h fastapi_headers
     = Failed (to_proxy_exception e)) ∧
  (∀ c, getattr_status_code e = Some c → code (to_proxy_exception e) = c) ∧
  (getattr_status_code e = None → code (to_proxy_exception e) = VInt 500) ∧
  (∀ m, getattr_message e = Some m → message (to_proxy_exception e) = m) ∧
  (∀ status_code detail attrs,
     e = HTTPException status_code detail attrs →
     code (to_proxy_exception e) = VInt status_code ∧
     (attr_message attrs = None → message (to_proxy_exception e) = VStr detail)).
Proof.
  split_and!.
  - intros * Htry. unfold create_file. by rewrite Htry.
  - intros * Htry. unfold get_file_content. by rewrite Htry.
  - intros * Htry. unfold get_file. by rewrite Htry.
  - intros * Htry. unfold delete_file. by rewrite Htry.
  - intros * Htry. unfold list_files. by rewrite Htry.
  - intros c Hc. destruct e; simpl in *; [congruence | by rewrite Hc].
  - intros Hc. destruct e; simpl in *; [done | by rewrite Hc].
  - intros m Hm. destruct e; simpl in *; by rewrite Hm.
- intros status_code detail attrs ->. simpl. split; [done|]. by intros ->.
Qed.

(** A handler never does anything else: it responds when its [try]
    block returns. *)
Lemma handle_ok {A} (body : result A) a : body = Ok a → handle body = Responded a.
Proof. by intros ->. Qed.

End HandlerClaims.

(** ** The endpoints on the demo deployment *)

(** A batch upload for a model of the pool: through the pool when there is
    one, to the fixed provider when there is none, with the [purpose] of
    the settings group of "openai". *)
Example create_file_known_model :
  Demo.body_of
    (create_file (C := Demo.collaborators) (VBool true) (Some Demo.pool) None "batch"
       None Demo.batch_file tt Demo.st1 ∅)
  = Responded (payload (Demo.file_object "pool")).
Proof. run. Qed.

Example create_file_known_model_no_router :
  Demo.body_of
    (create_file (C := Demo.collaborators) (VBool true) None None "batch"
       None Demo.batch_file tt Demo.st1 ∅)
  = Responded (payload (Demo.file_object "fixed-fine-tune")).
Proof. run. Qed.

(** The empty upload, with load balancing on. *)
Example create_file_empty_upload :
  Demo.body_of
    (create_file (C := Demo.collaborators) (VBool true) (Some Demo.pool) None "batch"
       None Demo.empty_file tt Demo.st1 ∅)
  = Failed {| message := VStr "list index out of range"; type := VStr "None";
              param := VStr "None"; code := VInt 500 |}.
Proof. run. Qed.

Lemma create_file_flag_off_uses_fixed_provider_witness :
  Demo.body_of
    (create_file (C := Demo.collaborators) (VBool false) (Some Demo.pool) None "batch"
       None Demo.batch_file tt Demo.st1 ∅)
  = Responded (payload (Demo.file_object "fixed-fine-tune")).
Proof.
  rewrite (create_file_flag_off_uses_fixed_provider (C := Demo.collaborators)
             (VBool false) (Some Demo.pool) None "batch" None Demo.batch_file tt
             Demo.st1 ∅ eq_refl).
  run.
Defined.

Lemma demo_openai_config :
  get_files_provider_config "openai" Demo.st1 = Ok (VRef 3%positive).
Proof. run. Qed.

Lemma demo_openai_settings :
  heap Demo.st1 !! 3%positive
  = Some (ODict (resolve_dict Demo.get_secret_str Demo.openai_settings)).
Proof. run. Qed.

Lemma create_file_fixed_provider_merge_witness :
  ∃ merged : gmap string val,
    create_file_fixed_provider (C := Demo.collaborators) "openai"
      Demo.upload_request Demo.st1
    = Demo.fixed_backend (<["custom_llm_provider" := VStr "openai"]> merged) ∧
    merged !! "custom_llm_provider" = None ∧
    merged !! "purpose" = Some (VStr "fine-tune").
Proof.
  destruct (create_file_fixed_provider_merge (C := Demo.collaborators) "openai"
              Demo.upload_request Demo.st1 3%positive
              (resolve_dict Demo.get_secret_str Demo.openai_settings)
              demo_openai_config demo_openai_settings)
    as (merged & Hcall & Hkey & Hother).
  exists merged. refine (conj Hcall (conj Hkey _)).
  assert ("purpose" ≠ "custom_llm_provider") as Hne by discriminate.
  rewrite (Hother "purpose" Hne). run.
Defined.

Lemma get_file_content_passthrough_witness :
  get_file_content (C := Demo.collaborators) None "f1" None tt
  = Responded {| resp_content := String.list_byte_of_string "{}";
                 resp_status_code := 200;
                 resp_headers := [("content-type", "application/jsonl")] |}.
Proof.
  assert (add_litellm_data_to_request (Collaborators := Demo.collaborators)
            ∅ None tt = Ok Demo.call_data) as Hdata by reflexivity.
  assert (effective_provider (C := Demo.collaborators) None None = Ok "openai")
    as Hprovider by run.
  assert (kwargs [("custom_llm_provider", VStr "openai"); ("file_id", VStr "f1")]
            Demo.call_data
          = Ok (<["custom_llm_provider" := VStr "openai"]>
                  (<["file_id" := VStr "f1"]> Demo.call_data))) as Hkw by reflexivity.
  assert (litellm_afile_content (Collaborators := Demo.collaborators)
            (<["custom_llm_provider" := VStr "openai"]>
               (<["file_id" := VStr "f1"]> Demo.call_data))
          = Ok (Demo.file_content "{}")) as Hbackend by run.
  exact (get_file_content_passthrough (C := Demo.collaborators) None "f1" None tt
           _ _ _ _ Hdata Hprovider Hkw Hbackend).
Defined.

Lemma handlers_normalize_exceptions_witness :
  get_file_content (C := Demo.collaborators) None "gone" None tt
  = Failed {| message := VStr "No such file"; type := VStr "None";
              param := VStr "None"; code := VInt 404 |}.
Proof.
  assert (get_file_content_try (C := Demo.collaborators) None "gone" None tt
          = Raise Demo.not_found) as Htry by run.
  exact (proj1 (proj2 (handlers_normalize_exceptions (C := Demo.collaborators)
                         Demo.not_found))
           None "gone" None tt Htry).
Defined.

(** * More properties of the code *)

(** ** The sniffer reads the first line of the decoded upload *)

Lemma decode_ascii_app (a bs : list Byte.byte) :
  forallb (λ b, Text.byte_val b <? 128)%N a = true →
  Text.decode (a ++ bs) = (app (Text.byte_val <$> a)) <$> Text.decode bs.
Proof.
  induction a as [|b a IH]; intros Ha.
  - simpl. by destruct (Text.decode bs).
  - simpl in Ha. apply andb_prop in Ha as [Hb Ha].
    change ((b :: a) ++ bs)%list with (b :: (a ++ bs))%list.
    cbn [Text.decode]. cbv zeta. rewrite Hb, (IH Ha).
    by destruct (Text.decode bs).
Qed.

Lemma not_linebreak_not_cr c : Text.is_linebreak c = false → (c =? 13)%N = false.
Proof.
  intros Hc. destruct (c =? 13)%N eqn:Heq; [|done].
  apply N.eqb_eq in Heq. subst c. discriminate Hc.
Qed.

Lemma splitlines_from_first (cur line t : list N) :
  forallb (λ c, negb (Text.is_linebreak c)) line = true →
  Text.splitlines_from cur (line ++ 10%N :: t)%list
  = ((rev cur ++ line) :: Text.splitlines_from [] t)%list.
Proof.
  revert cur. induction line as [|c line IH]; intros cur Hline.
  - simpl. by rewrite app_nil_r.
  - simpl in Hline. apply andb_prop in Hline as [Hc Hline].
    apply negb_true_iff in Hc.
    change ((c :: line) ++ 10%N :: t)%list with (c :: (line ++ 10%N :: t))%list.
    cbn [Text.splitlines_from].
    rewrite (not_linebreak_not_cr _ Hc), Hc, (IH _ Hline).
    simpl. by rewrite <- app_assoc.
Qed.

Lemma first_line_bytes (line : list Byte.byte) :
  forallb first_line_byte line = true →
  forallb (λ b, Text.byte_val b <? 128)%N (line ++ [Byte.x0a]) = true ∧
  forallb (λ c, negb (Text.is_linebreak c)) (Text.byte_val <$> line) = true.
Proof.
  induction line as [|b line IH]; intros Hline; [done|].
  simpl in Hline. apply andb_prop in Hline as [Hb Hline].
  apply andb_prop in Hb as [Hascii Hbreak].
  destruct (IH Hline) as [IH1 IH2]. split.
  - simpl. by rewrite Hascii, IH1.
  - rewrite fmap_cons. cbn [forallb]. by rewrite Hbreak, IH2.
Qed.

Section SnifferFacts.
Context `{C : Collaborators}.


Lemma decode_first_line (line rest : list Byte.byte) :
  forallb first_line_byte line = true →
  Text.decode (line ++ Byte.x0a :: rest)
  = (λ t, ((Text.byte_val <$> line) ++ 10%N :: t)%list) <$> Text.decode rest.
Proof.
  intros Hline. destruct (first_line_bytes line Hline) as [Hascii _].
  change (line ++ Byte.x0a :: rest)%list with (line ++ [Byte.x0a] ++ rest)%list.
  rewrite app_assoc, (decode_ascii_app _ _ Hascii), fmap_app.
  destruct (Text.decode rest); simpl; [|done].
  by rewrite <- app_assoc.
Qed.

(** X2.  When the upload is valid UTF-8, only its first line is parsed:
    for a first line of ASCII characters that is ended by a line feed,
    the result is what [json.loads] makes of that line, stripped, and
    [None] when [json.loads] rejects it; what the later lines hold has no
    part in it. *)
Theorem get_first_json_object_first_line (line rest : list Byte.byte) t :
  forallb first_line_byte line = true →
  Text.decode rest = Some t →
  get_first_json_object (line ++ Byte.x0a :: rest)
  = Ok (default VNone (json_loads (Text.strip (Text.byte_val <$> line)))).
Proof.
  intros Hline Hrest. unfold get_first_json_object.
  rewrite (decode_first_line _ _ Hline), Hrest. simpl.
  destruct (first_line_bytes line Hline) as [_ Hbreak].
  unfold Text.splitlines. rewrite (splitlines_from_first _ _ _ Hbreak). simpl.
  by destruct (json_loads _).
Qed.

(** X3.  The whole upload is decoded before the first line is taken:
    bytes that are not valid UTF-8 anywhere after the first line make the
    sniffer return [None], whatever the first line is. *)
Theorem get_first_json_object_invalid_later (line rest : list Byte.byte) :
  forallb first_line_byte line = true →
  Text.decode rest = None →
  get_first_json_object (line ++ Byte.x0a :: rest) = Ok VNone.
Proof.
  intros Hline Hrest. unfold get_first_json_object.
  by rewrite (decode_first_line _ _ Hline), Hrest.
Qed.

End SnifferFacts.

(** ** Which uploads go to the pool *)

Lemma py_get_not_dict (h : gmap loc obj) o key dflt :
  is_dict h o = false →
  py_get h o key dflt = Raise (AttributeError "object has no attribute 'get'").
Proof.
  destruct o; simpl; try done.
  by destruct (h !! l) as [[]|].
Qed.

Lemma nonempty_ne o s : nonempty o = Some s → s ≠ "".
Proof.
  unfold nonempty. destruct o as [s0|]; [|done].
  destruct (String.eqb s0 "") eqn:Heq; [done|].
  intros [= <-]. by apply String.eqb_neq.
Qed.

Section DispatchFacts.
Context `{C : Collaborators}.

(** X4.  When the sniffing block of [create_file] finds a router model,
    the flag is on, there is a router, and the model is a string among
    the names of the router: the checks [router_model is not None] and
    [llm_router is None] that follow can never fail. *)
Theorem sniff_known_model flag llm_router (h : gmap loc obj) file_content router_model :
  sniff flag llm_router h file_content = Ok (router_model, true) →
  is_True flag = true ∧
  ∃ r s, llm_router = Some r ∧ router_model = VStr s ∧ s ∈ get_model_names r.
Proof.
  unfold sniff. destruct (is_True flag); [|done].
  destruct (get_first_json_object file_content) as [json_obj|]; simpl; [|done].
  destruct (truthy h json_obj); [|done].
  destruct (get_model_from_json_obj h json_obj) as [m|]; simpl; [|done].
  intros [= -> Hknown]. split; [done|].
  unfold is_known_model in Hknown.
  destruct (is_None router_model); [done|].
  destruct llm_router as [r|]; [|done].
  destruct router_model; simpl in Hknown; try done.
  apply bool_decide_eq_true in Hknown. eauto.
Qed.

(** X5.  An upload whose sniffed model the router knows is sent to the
    router, with the model as the keyword [model] beside the file and
    the request data.  The provider configuration is not read on this
    path: the upload goes through also while [files_config] is unset. *)
Theorem create_file_routes_to_pool flag r request purpose provider file
    user_api_key_dict σ fastapi_headers custom_llm_provider data s :
  effective_provider provider request = Ok custom_llm_provider →
  add_litellm_data_to_request {["purpose" := VStr purpose]} request user_api_key_dict
  = Ok data →
  sniff flag (Some r) (heap σ) (file_bytes file) = Ok (VStr s, true) →
  data !! "file" = None →
  data !! "model" = None →
  create_file_try flag (Some r) request purpose provider file user_api_key_dict σ
    fastapi_headers =
  (let* resp :=
     router_acreate_file r
       (<["model" := VStr s]>
          (<["file" := VTuple [filename file; VBytes (file_bytes file);
                               content_type file]]> data)) in
   Ok (resp, response_headers (heap σ) user_api_key_dict resp fastapi_headers)).
Proof.
  intros Hprovider Hdata Hsniff Hfile Hmodel.
  destruct (sniff_known_model _ _ _ _ _ Hsniff) as [Hflag _].
  unfold create_file_try. rewrite Hprovider. simpl. rewrite Hdata. simpl.
  rewrite Hsniff. simpl. rewrite Hfile. simpl. rewrite Hflag. simpl.
  rewrite lookup_insert_ne by done. rewrite Hmodel. simpl. done.
Qed.

(** X6.  An upload that is not sent to the router needs the provider
    configuration: while [files_config] is unset, and the provider is not
    "vertex_ai", [create_file] fails with code 500 and the message of
    [get_files_provider_config]. *)
Theorem create_file_needs_files_config flag llm_router request purpose provider file
    user_api_key_dict σ fastapi_headers custom_llm_provider data router_model :
  effective_provider provider request = Ok custom_llm_provider →
  add_litellm_data_to_request {["purpose" := VStr purpose]} request user_api_key_dict
  = Ok data →
  sniff flag llm_router (heap σ) (file_bytes file) = Ok (router_model, false) →
  data !! "file" = None →
  custom_llm_provider ≠ "vertex_ai" →
  files_config σ = VNone →
  create_file flag llm_router request purpose provider file user_api_key_dict σ
    fastapi_headers =
  Failed {| message := VStr "files_config is not set, set it on your config.yaml file.";
            type := VStr "None";
            param := VStr "None";
            code := VInt 500 |}.
Proof.
  intros Hprovider Hdata Hsniff Hfile Hvertex Hconfig.
  unfold create_file, create_file_try. rewrite Hprovider. simpl. rewrite Hdata. simpl.
  rewrite Hsniff. simpl. rewrite Hfile. simpl. rewrite andb_false_r. simpl.
  unfold create_file_fixed_provider, get_files_provider_config.
  apply String.eqb_neq in Hvertex. by rewrite Hvertex, Hconfig.
Qed.

(** X7.  Without a settings group for the provider the request reaches
    the fixed provider as it is, but for the key [custom_llm_provider],
    which is that of the call.  For "vertex_ai" this is so whatever the
    configuration holds, also a settings group for "vertex_ai". *)
Theorem create_file_fixed_provider_without_settings
    (_create_file_request : gmap string val) σ :
  create_file_fixed_provider "vertex_ai" _create_file_request σ
  = litellm_acreate_file (<["custom_llm_provider" := VStr "vertex_ai"]> _create_file_request) ∧
  ∀ custom_llm_provider,
    get_files_provider_config custom_llm_provider σ = Ok VNone →
    create_file_fixed_provider custom_llm_provider _create_file_request σ
    = litellm_acreate_file
        (<["custom_llm_provider" := VStr custom_llm_provider]> _create_file_request).
Proof.
  assert (∀ custom_llm_provider,
            get_files_provider_config custom_llm_provider σ = Ok VNone →
            create_file_fixed_provider custom_llm_provider _create_file_request σ
            = litellm_acreate_file
                (<["custom_llm_provider" := VStr custom_llm_provider]>
                   _create_file_request)) as Hnone.
  { intros custom_llm_provider Hcfg. unfold create_file_fixed_provider.
    rewrite Hcfg. simpl. by rewrite insert_delete_eq. }
  split; [|done]. by apply Hnone.
Qed.

(** X8.  The provider of a call: the [provider] of the route when it is
    not empty, and then the request body is not read; otherwise what the
    body gives, and "openai" when that is nothing or empty.  It is never
    the empty string. *)
Theorem effective_provider_spec provider request :
  (∀ p, provider = Some p → p ≠ "" → effective_provider provider request = Ok p) ∧
  (nonempty provider = None →
   ∀ from_body, get_custom_llm_provider_from_request_body request = Ok from_body →
     effective_provider provider request = Ok (default "openai" (nonempty from_body))) ∧
  (∀ p, effective_provider provider request = Ok p → p ≠ "").
Proof.
  split_and!.
  - intros p -> Hp. unfold effective_provider. simpl.
    apply String.eqb_neq in Hp. by rewrite Hp.
  - intros Hprovider from_body Hbody. unfold effective_provider.
    by rewrite Hprovider, Hbody.
  - intros p. unfold effective_provider.
    destruct (nonempty provider) as [p0|] eqn:Hprovider.
    + intros [= <-]. by eapply nonempty_ne.
    + destruct (get_custom_llm_provider_from_request_body request) as [from_body|];
        simpl; [|done].
      destruct (nonempty from_body) as [p1|] eqn:Hbody; simpl; intros [= <-].
      * by eapply nonempty_ne.
      * done.
Qed.

(** X9.  With the flag on, an upload whose first line is JSON but not an
    object, and is truthy (a non-empty array or string, a number other
    than zero, [true]), makes [create_file] fail with code 500: the
    [AttributeError] of [json_object.get] is not caught before the handler
    catches it. *)
Theorem create_file_first_line_not_an_object flag llm_router request purpose provider
    file user_api_key_dict σ fastapi_headers custom_llm_provider data json_obj :
  is_True flag = true →
  effective_provider provider request = Ok custom_llm_provider →
  add_litellm_data_to_request {["purpose" := VStr purpose]} request user_api_key_dict
  = Ok data →
  get_first_json_object (file_bytes file) = Ok json_obj →
  truthy (heap σ) json_obj = true →
  is_dict (heap σ) json_obj = false →
  ∃ e, create_file flag llm_router request purpose provider file user_api_key_dict σ
         fastapi_headers = Failed e ∧
       code e = VInt 500.
Proof.
  intros Hflag Hprovider Hdata Hjson Htruthy Hdict.
  unfold create_file, create_file_try. rewrite Hprovider. simpl. rewrite Hdata. simpl.
  unfold sniff. rewrite Hflag, Hjson. simpl. rewrite Htruthy.
  unfold get_model_from_json_obj. rewrite (py_get_not_dict _ _ _ _ Hdict). simpl.
  eauto.
Qed.

End DispatchFacts.

(** ** What [set_files_config] keeps, and what a lookup finds after it *)

Section ConfigStoreMore.
Variable sec : string → option string.

Lemma iter_resolve_dict_dom n (d : gmap string val) :
  dom (Nat.iter n (resolve_dict sec) d) = dom d.
Proof.
  induction n as [|n IH]; [done|]. simpl.
  by rewrite resolve_dict_fmap, dom_fmap_L.
Qed.

Lemma as_dict_resolve_elements (h : gmap loc obj) elements v :
  is_Some (as_dict (resolve_elements sec h elements) v) ↔ is_Some (as_dict h v).
Proof.
  destruct v; simpl; try done.
  rewrite resolve_elements_lookup.
  destruct (h !! l) as [[d|xs]|]; split; intros [? ?]; by eauto.
Qed.

Lemma find_setting_returns (h : gmap loc obj) x settings :
  Forall (λ v, is_Some (as_dict h v)) settings →
  ∃ v, find_setting h x settings = Ok v ∧ (v = VNone ∨ v ∈ settings).
Proof.
  induction 1 as [|v rest [d Hd] _ (w & Hfind & Hw)]; simpl; [by eauto|].
  rewrite Hd. destruct (provider_is x d).
  - exists v. split; [done|]. right. by left.
  - exists w. split; [done|]. destruct Hw as [->|Hw]; [by left|]. right. by right.
Qed.

(** X10.  [set_files_config] on a list changes nothing but values that
    begin with the marker: the heap has the same addresses, every list
    is as it was, every dictionary has the same keys and, at a key whose
    value does not begin with the marker, the same value, and an object
    that the list does not name is as it was. *)
Theorem set_files_config_keeps_shape (config : val) (σ : state) elements :
  as_list (heap σ) config = Some elements →
  ∃ σ', set_files_config sec config σ = (Ok (), σ') ∧
    dom (heap σ') = dom (heap σ) ∧
    (∀ p xs, heap σ !! p = Some (OList xs) → heap σ' !! p = Some (OList xs)) ∧
    (∀ p d, heap σ !! p = Some (ODict d) →
       ∃ d', heap σ' !! p = Some (ODict d') ∧ dom d' = dom d ∧
             ∀ k v, d !! k = Some v → is_secret_ref v = false → d' !! k = Some v) ∧
    (∀ p, occurrences p elements = 0 → heap σ' !! p = heap σ !! p).
Proof.
  intros Hlist. eexists. split; [by apply set_files_config_list|]. simpl.
  split_and!.
  - apply set_eq. intros p. rewrite !elem_of_dom, resolve_elements_lookup.
    destruct (heap σ !! p) as [[d|xs]|]; split; intros [? ?]; by eauto.
  - intros p xs Hp. by rewrite resolve_elements_lookup, Hp.
  - intros p d Hp. rewrite resolve_elements_lookup, Hp.
    eexists. split_and!; [done| |].
    + apply iter_resolve_dict_dom.
    + intros k v Hk Hv. rewrite iter_resolve_dict_lookup, Hk. simpl.
      f_equal. apply iter_fixed. by apply resolve_val_id.
  - intros p Hocc. rewrite resolve_elements_lookup, Hocc.
    by destruct (heap σ !! p) as [[d|xs]|].
Qed.

(** X11.  A reference that the secret store cannot resolve is replaced
    by [None]: the settings group does not keep the reference. *)
Theorem set_files_config_unresolved_secret (σ : state) l elements p d k s :
  heap σ !! l = Some (OList elements) →
  VRef p ∈ elements →
  heap σ !! p = Some (ODict d) →
  d !! k = Some (VStr s) →
  startswith secret_marker s = true →
  sec s = None →
  ∃ σ' d', set_files_config sec (VRef l) σ = (Ok (), σ') ∧
           heap σ' !! p = Some (ODict d') ∧
           d' !! k = Some VNone.
Proof.
  intros Hl Hin Hp Hk Hs Hsec.
  assert (as_list (heap σ) (VRef l) = Some elements) as Hlist
    by (simpl; by rewrite Hl).
  eexists _, _. split; [by apply set_files_config_list|]. simpl.
  rewrite resolve_elements_lookup, Hp. split; [done|].
  rewrite iter_resolve_dict_lookup, Hk. simpl. f_equal.
  apply occurrences_elem in Hin.
  destruct (occurrences p elements) as [|n]; [lia|].
  rewrite Nat.iter_succ_r.
  assert (resolve_val sec (VStr s) = VNone) as ->.
  { unfold resolve_val, secret_val. simpl. by rewrite Hs, Hsec. }
  by apply iter_fixed.
Qed.

(** X12.  After [set_files_config] on a list of settings groups,
    [get_files_provider_config] never raises: it returns [None] or one of
    the settings groups of the list, the caller's own object. *)
Theorem get_files_provider_config_after_set (config : val) (σ : state) elements x :
  as_list (heap σ) config = Some elements →
  Forall (λ v, is_Some (as_dict (heap σ) v)) elements →
  ∃ σ', set_files_config sec config σ = (Ok (), σ') ∧
    ∃ v, get_files_provider_config x σ' = Ok v ∧ (v = VNone ∨ v ∈ elements).
Proof.
  intros Hlist Hdicts. eexists. split; [by apply set_files_config_list|].
  unfold get_files_provider_config. simpl.
  destruct (String.eqb x "vertex_ai"); [by eauto|].
  assert (is_None config = false) as ->
    by (destruct config; simpl in *; done).
  rewrite (resolve_elements_list sec elements _ _ _ Hlist).
  apply find_setting_returns.
  eapply Forall_impl; [exact Hdicts|]. intros v Hv.
  by apply as_dict_resolve_elements.
Qed.

(** X13.  [set_files_config] accepts a list whose first element is not a
    settings group, and every later lookup, but for "vertex_ai", then
    raises [AttributeError]. *)
Theorem get_files_provider_config_element_not_dict (config : val) (σ : state) v rest x :
  as_list (heap σ) config = Some (v :: rest) →
  as_dict (heap σ) v = None →
  x ≠ "vertex_ai" →
  ∃ σ' msg, set_files_config sec config σ = (Ok (), σ') ∧
            get_files_provider_config x σ' = Raise (AttributeError msg).
Proof.
  intros Hlist Hv Hx. eexists _, _. split; [by apply set_files_config_list|].
  unfold get_files_provider_config. cbn [heap files_config].
  apply String.eqb_neq in Hx. rewrite Hx.
  assert (is_None config = false) as ->
    by (destruct config; simpl in *; done).
  rewrite (resolve_elements_list sec (v :: rest) _ _ _ Hlist).
  cbn [find_setting].
  destruct (as_dict (resolve_elements sec (heap σ) (v :: rest)) v) as [d|] eqn:Hd;
    [|done].
  assert (is_Some (as_dict (heap σ) v)) as [d0 Hd0]
    by (apply (as_dict_resolve_elements _ (v :: rest)); eauto).
  congruence.
Qed.

End ConfigStoreMore.

(** ** The calls of the handlers that take no upload *)

Lemma kwargs_two k1 v1 k2 v2 (data kw : gmap string val) :
  kwargs [(k1, v1); (k2, v2)] data = Ok kw →
  data !! k1 = None ∧ data !! k2 = None ∧ kw = <[k1 := v1]> (<[k2 := v2]> data).
Proof.
  simpl. destruct (data !! k1); [done|]. destruct (data !! k2); simpl; [done|].
  by intros [= <-].
Qed.

Section FileOpFacts.
Context `{C : Collaborators}.

Lemma file_op_try_ok backend explicit request provider user_api_key_dict
    (h : gmap loc obj) fastapi_headers r hdrs :
  file_op_try backend explicit request provider user_api_key_dict h fastapi_headers
  = Ok (r, hdrs) →
  ∃ custom_llm_provider data kw,
    effective_provider provider request = Ok custom_llm_provider ∧
    add_litellm_data_to_request ∅ request user_api_key_dict = Ok data ∧
    kwargs (explicit custom_llm_provider) data = Ok kw ∧
    backend kw = Ok r ∧
    hdrs = response_headers h user_api_key_dict r fastapi_headers.
Proof.
  unfold file_op_try.
  destruct (effective_provider provider request) as [custom_llm_provider|];
    simpl; [|done].
  destruct (add_litellm_data_to_request ∅ request user_api_key_dict) as [data|];
    simpl; [|done].
  destruct (kwargs (explicit custom_llm_provider) data) as [kw|] eqn:Hkw;
    simpl; [|done].
  destruct (backend kw) as [r0|] eqn:Hbackend; simpl; [|done].
  intros [= <- <-]. by eauto 10.
Qed.

(** X14.  When [get_file], [delete_file] or [list_files] responds, the
    backend was called with the request data and two more keywords: the
    provider of the call and the file identifier (the purpose, for
    [list_files]).  The provider configuration has no part in the call:
    no settings group is merged into it. *)
Theorem file_handlers_backend_call request provider user_api_key_dict
    (h : gmap loc obj) fastapi_headers r hdrs :
  (∀ file_id,
     get_file request file_id provider user_api_key_dict h fastapi_headers
     = Responded (r, hdrs) →
     ∃ custom_llm_provider data,
       effective_provider provider request = Ok custom_llm_provider ∧
       add_litellm_data_to_request ∅ request user_api_key_dict = Ok data ∧
       litellm_afile_retrieve
         (<["custom_llm_provider" := VStr custom_llm_provider]>
            (<["file_id" := VStr file_id]> data)) = Ok r) ∧
  (∀ file_id,
     delete_file request file_id provider user_api_key_dict h fastapi_headers
     = Responded (r, hdrs) →
     ∃ custom_llm_provider data,
       effective_provider provider request = Ok custom_llm_provider ∧
       add_litellm_data_to_request ∅ request user_api_key_dict = Ok data ∧
       litellm_afile_delete
         (<["custom_llm_provider" := VStr custom_llm_provider]>
            (<["file_id" := VStr file_id]> data)) = Ok r) ∧
  (∀ purpose,
     list_files request provider purpose user_api_key_dict h fastapi_headers
     = Responded (r, hdrs) →
     ∃ custom_llm_provider data,
       effective_provider provider request = Ok custom_llm_provider ∧
       add_litellm_data_to_request ∅ request user_api_key_dict = Ok data ∧
       litellm_afile_list
         (<["custom_llm_provider" := VStr custom_llm_provider]>
            (<["purpose" := from_option VStr VNone purpose]> data)) = Ok r).
Proof.
  split_and!.
  - intros file_id. unfold get_file, get_file_try, handle.
    destruct (file_op_try _ _ _ _ _ _ _) as [[r0 hdrs0]|] eqn:Htry; [|done].
    intros [= -> ->].
    apply file_op_try_ok in Htry as (cp & data & kw & Hp & Hd & Hkw & Hb & _).
    apply kwargs_two in Hkw as (_ & _ & ->). by eauto.
  - intros file_id. unfold delete_file, delete_file_try, handle.
    destruct (file_op_try _ _ _ _ _ _ _) as [[r0 hdrs0]|] eqn:Htry; [|done].
    intros [= -> ->].
    apply file_op_try_ok in Htry as (cp & data & kw & Hp & Hd & Hkw & Hb & _).
    apply kwargs_two in Hkw as (_ & _ & ->). by eauto.
  - intros purpose. unfold list_files, list_files_try, handle.
    destruct (file_op_try _ _ _ _ _ _ _) as [[r0 hdrs0]|] eqn:Htry; [|done].
    intros [= -> ->].
    apply file_op_try_ok in Htry as (cp & data & kw & Hp & Hd & Hkw & Hb & _).
    apply kwargs_two in Hkw as (_ & _ & ->). by eauto.
Qed.

End FileOpFacts.

(** ** The model of the first line *)

(** X15.  The model that [get_model_from_json_obj] reads from a JSON
    object: [None] when the object has no [body] or a falsy one (null,
    an empty object, array or string, zero, false); the [model] of the
    [body] when that is an object, and [None] when it has none; and an
    [AttributeError] when the [body] is truthy and not an object. *)
Theorem get_model_from_json_obj_spec (h : gmap loc obj) items :
  (items_get "body" items = None →
   get_model_from_json_obj h (VDict items) = Ok VNone) ∧
  (∀ b, items_get "body" items = Some b → truthy h b = false →
        get_model_from_json_obj h (VDict items) = Ok VNone) ∧
  (∀ fields, items_get "body" items = Some (VDict fields) →
        get_model_from_json_obj h (VDict items)
        = Ok (default VNone (items_get "model" fields))) ∧
  (∀ b, items_get "body" items = Some b → truthy h b = true → is_dict h b = false →
        ∃ msg, get_model_from_json_obj h (VDict items) = Raise (AttributeError msg)).
Proof.
  unfold get_model_from_json_obj. split_and!.
  - intros Hbody. simpl. by rewrite Hbody.
  - intros b Hbody Hb. simpl. rewrite Hbody. simpl. by rewrite Hb.
  - intros fields Hbody. simpl. rewrite Hbody. simpl.
    by destruct fields.
  - intros b Hbody Hb Hdict. simpl. rewrite Hbody. simpl. rewrite Hb.
    rewrite (py_get_not_dict _ _ _ _ Hdict). eauto.
Qed.

(** ** These properties on the demo deployment *)

Lemma batch_line_first_line : forallb first_line_byte Demo.batch_line = true.
Proof. run. Qed.

Lemma batch_line_decodes :
  Text.decode Demo.batch_line = Some (Text.byte_val <$> Demo.batch_line).
Proof. run. Qed.

Lemma get_first_json_object_first_line_witness :
  get_first_json_object (C := Demo.collaborators)
    (Demo.batch_line ++ Byte.x0a :: Demo.batch_line)
  = Ok (VDict [("body", VDict [("model", VStr "gpt-4")])]).
Proof.
  rewrite (get_first_json_object_first_line (C := Demo.collaborators)
             Demo.batch_line Demo.batch_line _
             batch_line_first_line batch_line_decodes).
  run.
Defined.

Lemma get_first_json_object_invalid_later_witness :
  get_first_json_object (C := Demo.collaborators)
    (Demo.batch_line ++ Byte.x0a :: Cases.broken_tail)
  = Ok VNone.
Proof.
  assert (Text.decode Cases.broken_tail = None) as Hbroken by run.
  exact (get_first_json_object_invalid_later (C := Demo.collaborators)
           Demo.batch_line Cases.broken_tail batch_line_first_line Hbroken).
Defined.

Lemma demo_sniff (h : gmap loc obj) :
  sniff (C := Demo.collaborators) (VBool true) (Some Demo.pool) h
    (file_bytes Demo.batch_file)
  = Ok (VStr "gpt-4", true).
Proof. run. Qed.

Lemma sniff_known_model_witness :
  is_True (VBool true) = true ∧
  ∃ r s, Some Demo.pool = Some r ∧ VStr "gpt-4" = VStr s ∧ s ∈ get_model_names r.
Proof.
  exact (sniff_known_model (C := Demo.collaborators) (VBool true) (Some Demo.pool)
           ∅ (file_bytes Demo.batch_file) (VStr "gpt-4") (demo_sniff ∅)).
Defined.

Lemma create_file_routes_to_pool_witness :
  create_file_try (C := Demo.collaborators) (VBool true) (Some Demo.pool) None "batch"
    None Demo.batch_file tt Demo.st0 ∅
  = Ok (Demo.file_object "pool",
        response_headers (C := Demo.collaborators) (heap Demo.st0) tt
          (Demo.file_object "pool") ∅).
Proof.
  assert (Cases.upload_data !! "file" = None) as Hfile by run.
  assert (Cases.upload_data !! "model" = None) as Hmodel by run.
  exact (create_file_routes_to_pool (C := Demo.collaborators) (VBool true) Demo.pool
           None "batch" None Demo.batch_file tt Demo.st0 ∅ "openai" Cases.upload_data
           "gpt-4" eq_refl eq_refl (demo_sniff (heap Demo.st0)) Hfile Hmodel).
Defined.

Lemma create_file_needs_files_config_witness :
  create_file (C := Demo.collaborators) (VBool false) (Some Demo.pool) None "batch"
    None Demo.batch_file tt Demo.st0 ∅
  = Failed {| message := VStr "files_config is not set, set it on your config.yaml file.";
              type := VStr "None";
              param := VStr "None";
              code := VInt 500 |}.
Proof.
  assert (Cases.upload_data !! "file" = None) as Hfile by run.
  assert ("openai" ≠ "vertex_ai") as Hvertex by discriminate.
  exact (create_file_needs_files_config (C := Demo.collaborators) (VBool false)
           (Some Demo.pool) None "batch" None Demo.batch_file tt Demo.st0 ∅
           "openai" Cases.upload_data VNone eq_refl eq_refl eq_refl Hfile Hvertex
           eq_refl).
Defined.

Lemma demo_bedrock_config :
  get_files_provider_config "bedrock" Demo.st1 = Ok VNone.
Proof. run. Qed.

Lemma create_file_fixed_provider_without_settings_witness :
  create_file_fixed_provider (C := Demo.collaborators) "bedrock"
    Demo.upload_request Demo.st1
  = Demo.fixed_backend (<["custom_llm_provider" := VStr "bedrock"]> Demo.upload_request).
Proof.
  exact (proj2 (create_file_fixed_provider_without_settings (C := Demo.collaborators)
                  Demo.upload_request Demo.st1)
           "bedrock" demo_bedrock_config).
Defined.

Lemma effective_provider_spec_witness :
  effective_provider (C := Demo.collaborators) (Some "azure") (Some "openai")
  = Ok "azure" ∧
  effective_provider (C := Demo.collaborators) (Some "") (Some "") = Ok "openai".
Proof.
  assert ("azure" ≠ "") as Hazure by discriminate.
  split.
  - exact (proj1 (effective_provider_spec (C := Demo.collaborators)
                    (Some "azure") (Some "openai")) "azure" eq_refl Hazure).
  - exact (proj1 (proj2 (effective_provider_spec (C := Demo.collaborators)
                           (Some "") (Some ""))) eq_refl (Some "") eq_refl).
Defined.

Lemma create_file_first_line_not_an_object_witness :
  ∃ e, create_file (C := Cases.collaborators) (VBool true) (Some Demo.pool) None
         "batch" None Cases.list_file tt Demo.st1 ∅ = Failed e ∧
       code e = VInt 500.
Proof.
  assert (get_first_json_object (C := Cases.collaborators) (file_bytes Cases.list_file)
          = Ok (VList [VInt 1])) as Hjson by run.
  exact (create_file_first_line_not_an_object (C := Cases.collaborators) (VBool true)
           (Some Demo.pool) None "batch" None Cases.list_file tt Demo.st1 ∅
           "openai" Cases.upload_data (VList [VInt 1])
           eq_refl eq_refl eq_refl Hjson eq_refl eq_refl).
Defined.

Lemma demo_config_list :
  as_list (heap Demo.st0) (VRef 1%positive) = Some [VRef 2%positive; VRef 3%positive].
Proof. run. Qed.

Lemma set_files_config_keeps_shape_witness :
  ∃ σ', set_files_config Demo.get_secret_str (VRef 1%positive) Demo.st0 = (Ok (), σ') ∧
        dom (heap σ') = dom (heap Demo.st0) ∧
        ∃ d', heap σ' !! 3%positive = Some (ODict d') ∧
              dom d' = dom Demo.openai_settings ∧
              d' !! "purpose" = Some (VStr "fine-tune").
Proof.
  destruct (set_files_config_keeps_shape Demo.get_secret_str (VRef 1%positive)
              Demo.st0 _ demo_config_list)
    as (σ' & Hset & Hdom & _ & Hdicts & _).
  assert (heap Demo.st0 !! 3%positive = Some (ODict Demo.openai_settings)) as H3 by run.
  destruct (Hdicts 3%positive Demo.openai_settings H3) as (d' & Hd' & Hkeys & Hvalues).
  assert (Demo.openai_settings !! "purpose" = Some (VStr "fine-tune")) as Hpurpose
    by run.
  exists σ'. refine (conj Hset (conj Hdom _)).
  exists d'. exact (conj Hd' (conj Hkeys (Hvalues _ _ Hpurpose eq_refl))).
Defined.

Lemma set_files_config_unresolved_secret_witness :
  ∃ σ' d', set_files_config Demo.get_secret_str (VRef 1%positive) Cases.st = (Ok (), σ') ∧
           heap σ' !! 2%positive = Some (ODict d') ∧
           d' !! "api_key" = Some VNone.
Proof.
  assert (heap Cases.st !! 1%positive = Some (OList [VStr "azure"; VRef 2%positive]))
    as Hl by run.
  assert (heap Cases.st !! 2%positive = Some (ODict Cases.azure_settings)) as Hp by run.
  assert (Cases.azure_settings !! "api_key" = Some (VStr "os.environ/MISSING"))
    as Hk by run.
  assert (startswith secret_marker "os.environ/MISSING" = true) as Hs by run.
  assert (Demo.get_secret_str "os.environ/MISSING" = None) as Hsec by run.
  assert (VRef 2%positive ∈ [VStr "azure"; VRef 2%positive]) as Hin
    by (repeat constructor).
  exact (set_files_config_unresolved_secret Demo.get_secret_str Cases.st 1%positive
           _ 2%positive _ "api_key" _ Hl Hin Hp Hk Hs Hsec).
Defined.

Lemma demo_config_dicts :
  Forall (λ v, is_Some (as_dict (heap Demo.st0) v)) [VRef 2%positive; VRef 3%positive].
Proof.
  repeat first [apply Forall_nil_2 | apply Forall_cons_2];
    apply is_Some_by_match; vm_compute; exact I.
Qed.

Lemma get_files_provider_config_after_set_witness :
  ∃ σ', set_files_config Demo.get_secret_str (VRef 1%positive) Demo.st0 = (Ok (), σ') ∧
    ∃ v, get_files_provider_config "azure" σ' = Ok v ∧
         (v = VNone ∨ v ∈ [VRef 2%positive; VRef 3%positive]).
Proof.
  exact (get_files_provider_config_after_set Demo.get_secret_str (VRef 1%positive)
           Demo.st0 _ "azure" demo_config_list demo_config_dicts).
Defined.

Lemma get_files_provider_config_element_not_dict_witness :
  ∃ σ' msg, set_files_config Demo.get_secret_str (VRef 1%positive) Cases.st = (Ok (), σ') ∧
            get_files_provider_config "azure" σ' = Raise (AttributeError msg).
Proof.
  assert (as_list (heap Cases.st) (VRef 1%positive)
          = Some [VStr "azure"; VRef 2%positive]) as Hlist by run.
  assert ("azure" ≠ "vertex_ai") as Hx by discriminate.
  exact (get_files_provider_config_element_not_dict Demo.get_secret_str
           (VRef 1%positive) Cases.st _ _ "azure" Hlist eq_refl Hx).
Defined.

Lemma file_handlers_backend_call_witness :
  ∃ custom_llm_provider data,
    effective_provider (C := Demo.collaborators) (Some "azure") None
    = Ok custom_llm_provider ∧
    add_litellm_data_to_request (Collaborators := Demo.collaborators) ∅ None tt
    = Ok data ∧
    litellm_afile_delete (Collaborators := Demo.collaborators)
      (<["custom_llm_provider" := VStr custom_llm_provider]>
         (<["file_id" := VStr "abc"]> data))
    = Ok (Demo.file_object "abc").
Proof.
  assert (delete_file (C := Demo.collaborators) None "abc" (Some "azure") tt ∅ ∅
          = Responded (Demo.file_object "abc",
                       response_headers (C := Demo.collaborators) ∅ tt
                         (Demo.file_object "abc") ∅)) as Hdeleted by reflexivity.
  exact (proj1 (proj2 (file_handlers_backend_call (C := Demo.collaborators)
                         None (Some "azure") tt ∅ ∅ _ _))
           "abc" Hdeleted).
Defined.

Lemma get_model_from_json_obj_spec_witness :
  get_model_from_json_obj ∅ (VDict [("body", VDict [("model", VStr "gpt-4")])])
  = Ok (VStr "gpt-4") ∧
  get_model_from_json_obj ∅ (VDict [("body", VNone)]) = Ok VNone ∧
  ∃ msg, get_model_from_json_obj ∅ (VDict [("body", VStr "gpt-4")])
         = Raise (AttributeError msg).
Proof.
  split_and!.
  - exact (proj1 (proj2 (proj2 (get_model_from_json_obj_spec ∅
             [("body", VDict [("model", VStr "gpt-4")])]))) _ eq_refl).
  - exact (proj1 (proj2 (get_model_from_json_obj_spec ∅ [("body", VNone)]))
             VNone eq_refl eq_refl).
  - exact (proj2 (proj2 (proj2 (get_model_from_json_obj_spec ∅
             [("body", VStr "gpt-4")]))) (VStr "gpt-4") eq_refl eq_refl eq_refl).
Defined.
